(** * The booking form hook of the Booker ([useBookingForm])

    A shallow embedding of the booking orchestrator: the duration and
    metadata composition done by [handleBookEvent], the choice of the
    creation path, the success and error callbacks of the three creation
    mutations and the instant-booking poller.

    Conventions of the embedding:
    - a JavaScript number is a [Z] (the hook only handles integral minutes,
      counts, ids and millisecond instants); [null]/[undefined] is [None];
    - the calls the hook makes on its collaborators (router, toast, console,
      mutations, store setters, redirect resolver) are appended to a trace,
      in program order; the setters that change state the hook reads back
      also update the [World];
    - a [return;] in a callback is the [Return] outcome of the monad [M]. *)

From Stdlib Require Import Ascii.
From stdpp Require Import base numbers option list strings gmap.

(** ** JavaScript values *)

Module JS.

(** [ToBoolean]: the truthiness test behind [if], [&&], [||], [!]. *)
Class ToBoolean (A : Type) := toBoolean : A -> bool.

#[global] Instance bool_ToBoolean : ToBoolean bool := fun b => b.
#[global] Instance number_ToBoolean : ToBoolean Z := fun n => negb (n =? 0)%Z.
#[global] Instance string_ToBoolean : ToBoolean string :=
  fun s => match s with EmptyString => false | String _ _ => true end.
#[global] Instance nullable_ToBoolean {A} `{ToBoolean A} : ToBoolean (option A) :=
  fun o => match o with Some a => toBoolean a | None => false end.

(** [a || b] where [a] may be null and [b] is a plain value. *)
Definition or_else {A} `{ToBoolean A} (a : option A) (b : A) : A :=
  match a with
  | Some v => if toBoolean v then v else b
  | None => b
  end.

(** [s.startsWith(p)] *)
Definition startsWith (s p : string) : bool := String.prefix p s.

Definition clamp (lo hi x : Z) : Z := Z.min (Z.max x lo) hi.

(** [s.substring(start, end)]: both indices are clamped to [0, s.length]
    and swapped when [start > end]. *)
Definition substring (s : string) (istart iend : Z) : string :=
  let len := Z.of_nat (String.length s) in
  let a := clamp 0 len istart in
  let b := clamp 0 len iend in
  let from := Z.min a b in
  let to := Z.max a b in
  String.substring (Z.to_nat from) (Z.to_nat (to - from)) s.

Definition length (s : string) : Z := Z.of_nat (String.length s).

End JS.

Import JS.

(** ** Data model *)

(** A value of the [responses] map of the form: plain text, or the
    split first/last name variant of the name field. *)
Inductive ResponseValue :=
| RText (s : string)
| RName (firstName : string) (lastName : option string).

Record BookingFormValues := {
  responses : gmap string ResponseValue;
}.

Record RecurringEvent := {
  freq : Z;
  count : Z;
  interval : Z;
}.

Record EventMetadata := {
  multipleDuration : option (list Z);
}.

(** [event.data] *)
Record EventData := {
  isDynamic : bool;
  ev_length : Z;
  metadata : option EventMetadata;
  recurringEvent : option RecurringEvent;
  successRedirectUrl : option string;
}.

Record BookingData := {
  bd_uid : option string;
  bd_startTime : option Z;
}.

Record SeatedEventData := {
  bookingUid : option string;
}.

(** The query string: [routerQuery] is the plain object built from it
    (its own keys, in [Object.keys] order), [searchParams] the
    [URLSearchParams] view, which may be null. *)
Definition QueryObject := list (string * string).

(** What the hook reads from its props, the store and the other hooks at
    the render whose closures are running. *)
Record Ctx := {
  event_data : option EventData;
  hashedLink : option string;
  eventSlug : option string;
  rescheduleUid : option string;
  bookingData : option BookingData;
  timeslot : option string;
  seatedEventData : SeatedEventData;
  recurringEventCount : option Z;
  isInstantMeeting : bool;
  duration : option Z;
  timezone : string;
  username : option string;
  routerQuery : QueryObject;
  searchParams : option QueryObject;
  language : string;
  (** [bookerFormErrorRef.current] is an element *)
  errorRefMounted : bool;
}.

(** [bookingInput] of [handleBookEvent] *)
Record BookingInput := {
  bi_values : BookingFormValues;
  bi_duration : Z;
  bi_event : EventData;
  bi_date : string;
  bi_timeZone : string;
  bi_language : string;
  bi_rescheduleUid : option string;
  bi_bookingUid : option string;
  bi_username : string;
  bi_metadata : gmap string (option string);
  bi_hashedLink : option string;
}.

(** Results of the creation calls. *)
Record BookingResponse := {
  br_uid : option string;
  br_paymentUid : option string;
  (** [None]: the key is not in the object *)
  br_seatReferenceUid : option (option string);
}.

Record RecurringOccurrence := {
  ro_uid : option string;
}.

Record InstantResponse := {
  ir_bookingId : Z;
  ir_expires : Z;
}.

(** The first argument of [createPaymentLink]. *)
Record PaymentLinkArgs := {
  pl_paymentUid : string;
  pl_date : option string;
  pl_name : string;
  pl_email : option ResponseValue;
  pl_absolute : bool;
}.

Record RedirectQuery := {
  isSuccessBookingPage : bool;
  allRemainingBookings : option bool;
  rq_email : option ResponseValue;
  eventTypeSlug : option string;
  seatReferenceUid : option (option string);
  formerTime : option string;
}.

(** The [booking] handed to the redirect resolver. *)
Inductive RedirectBooking :=
| OfSingle (r : BookingResponse)
| OfOccurrence (o : RecurringOccurrence).

Record RedirectArgs := {
  ra_successRedirectUrl : string;
  ra_query : RedirectQuery;
  ra_booking : RedirectBooking;
}.

(** The answer of [getInstantBookingLocation]: the raw metadata of the
    booking, if there is a booking and it has metadata. *)
Record PollPayload (Raw : Type) := {
  booking_metadata : option Raw;
}.
Arguments booking_metadata {Raw} _.

(** Outcome of [bookingMetadataSchema.parse(..)?.videoCallUrl]. *)
Inductive ParseOutcome :=
| Throws
| Parsed (videoCallUrl : option string).

(** The pure functions the hook imports from the rest of the repository;
    they are parameters of the development. *)
Class Collaborators := {
  RawMetadata : Type;
  (** the literal [{}] *)
  emptyMetadata : RawMetadata;
  bookingMetadataSchema_parse : RawMetadata -> ParseOutcome;
  getFullName : option ResponseValue -> string;
  createPaymentLink : PaymentLinkArgs -> string;
  t : string -> string;
  dayjs_toString : Z -> string;
}.

(** ** Effects *)

Inductive ToastKind := ToastError | ToastSuccess.

(** [createXMutation.mutate(mapper(bookingInput, ..))]: the call is
    recorded with the arguments of the mapper. *)
Inductive CreationCall :=
| CreateInstant (input : BookingInput)
| CreateRecurring (input : BookingInput) (recurringCount : Z)
| CreateSingle (input : BookingInput).

Inductive Effect :=
| SetFormValues (values : gmap string ResponseValue)
| ClearErrors
| SetError (field message : string)
| Mutate (call : CreationCall)
| RouterPush (url : string)
| ShowToast (message : string) (kind : ToastKind)
| ConsoleError (message : string)
| ScrollIntoView
| BookingSuccessRedirect (args : RedirectArgs)
| UpdateQueryParam (key : string) (value : Z)
| SetExpiryTime (expires : Z).

(** The mutable state the hook and its callbacks act on. *)
Record World := {
  (** form values cached in the store ([setFormValues]) *)
  storeFormValues : gmap string ResponseValue;
  (** values held by the form ([bookingForm.getValues()]) *)
  formValues : BookingFormValues;
  (** [bookingForm.formState.errors] *)
  formErrors : gmap string string;
  (** [bookingId] of the page URL *)
  queryBookingId : option Z;
  (** the [expiryTime] state *)
  expiryTime : option Z;
  trace : list Effect;
}.

Inductive Outcome (A : Type) :=
| Value (a : A)
| Return.
Arguments Value {A} _.
Arguments Return {A}.

Definition M (A : Type) : Type := World -> Outcome A * World.

#[global] Instance M_ret : MRet M := fun A a w => (Value a, w).
#[global] Instance M_bind : MBind M := fun A B f m w =>
  match m w with
  | (Value a, w') => f a w'
  | (Return, w') => (Return, w')
  end.

Definition early_return {A} : M A := fun w => (Return, w).
Definition get_world : M World := fun w => (Value w, w).
Definition modify (f : World -> World) : M unit := fun w => (Value tt, f w).

(** Running a callback to its end, whichever way it ends. *)
Definition run (m : M unit) (w : World) : World := (m w).2.

Definition log (e : Effect) (w : World) : World :=
  {| storeFormValues := storeFormValues w; formValues := formValues w;
     formErrors := formErrors w; queryBookingId := queryBookingId w;
     expiryTime := expiryTime w; trace := trace w ++ [e] |}.

Definition emit (e : Effect) : M unit := modify (log e).

Definition when (b : bool) (m : M unit) : M unit := if b then m else mret tt.

(** The setters that change state the hook reads back. *)
Definition setFormValues (values : gmap string ResponseValue) : M unit :=
  modify (fun w =>
    log (SetFormValues values)
      {| storeFormValues := values; formValues := formValues w;
         formErrors := formErrors w; queryBookingId := queryBookingId w;
         expiryTime := expiryTime w; trace := trace w |}).

Definition clearErrors : M unit :=
  modify (fun w =>
    log ClearErrors
      {| storeFormValues := storeFormValues w; formValues := formValues w;
         formErrors := ∅; queryBookingId := queryBookingId w;
         expiryTime := expiryTime w; trace := trace w |}).

Definition setError (field message : string) : M unit :=
  modify (fun w =>
    log (SetError field message)
      {| storeFormValues := storeFormValues w; formValues := formValues w;
         formErrors := <[field := message]> (formErrors w);
         queryBookingId := queryBookingId w;
         expiryTime := expiryTime w; trace := trace w |}).

Definition updateQueryParam_bookingId (value : Z) : M unit :=
  modify (fun w =>
    log (UpdateQueryParam "bookingId" value)
      {| storeFormValues := storeFormValues w; formValues := formValues w;
         formErrors := formErrors w; queryBookingId := Some value;
         expiryTime := expiryTime w; trace := trace w |}).

Definition setExpiryTime (expires : Z) : M unit :=
  modify (fun w =>
    log (SetExpiryTime expires)
      {| storeFormValues := storeFormValues w; formValues := formValues w;
         formErrors := formErrors w; queryBookingId := queryBookingId w;
         expiryTime := Some expires; trace := trace w |}).

(** [bookingForm.getValues("responses.<field>")] *)
Definition getValues (w : World) (field : string) : option ResponseValue :=
  responses (formValues w) !! field.

(** [x || undefined] *)
Definition or_undefined {A} `{ToBoolean A} (x : option A) : option A :=
  if toBoolean x then x else None.

(** [a || b] on two nullable values *)
Definition or_nullable {A} `{ToBoolean A} (a b : option A) : option A :=
  if toBoolean a then a else b.

(** ** The request composer *)

(** [event.data.metadata?.multipleDuration?.includes(duration)];
    [None] is the [undefined] of a short-circuited chain. *)
Definition multipleDuration_includes (data : EventData) (d : Z) : option bool :=
  md ← metadata data; l ← multipleDuration md; Some (bool_decide (d ∈ l)).

Definition validDuration (data : EventData) (duration : option Z) : Z :=
  if isDynamic data then or_else duration (ev_length data)
  else
    match duration with
    | Some d =>
        if toBoolean d && toBoolean (multipleDuration_includes data d)
        then d else ev_length data
    | None => ev_length data
    end.

(** [searchParams.get(key)]: the first value of [key], or null. *)
Fixpoint searchParams_get (sp : QueryObject) (key : string) : option string :=
  match sp with
  | [] => None
  | (k, v) :: rest => if String.eqb k key then Some v else searchParams_get rest key
  end.

(** [key.substring("metadata[".length, key.length - 1)] *)
Definition metadataName (key : string) : string :=
  JS.substring key (JS.length "metadata[") (JS.length key - 1).

(** [Object.keys(routerQuery).filter(..).reduce(.., {})] *)
Definition metadataKeys (routerQuery : QueryObject) : list string :=
  filter (fun key => Is_true (startsWith key "metadata")) (routerQuery.*1).

(** The reducer: [{ ...metadata, [name]: searchParams?.get(key) }] *)
Definition metadataReducer (searchParams : option QueryObject)
  (metadata : gmap string (option string)) (key : string) : gmap string (option string) :=
  <[metadataName key := sp ← searchParams; searchParams_get sp key]> metadata.

Definition extractMetadata (routerQuery : QueryObject) (searchParams : option QueryObject)
  : gmap string (option string) :=
  foldl (metadataReducer searchParams) ∅ (metadataKeys routerQuery).

(** [isRescheduling = !!rescheduleUid && !!bookingData] *)
Definition isRescheduling (ctx : Ctx) : bool :=
  toBoolean (rescheduleUid ctx) && bool_decide (is_Some (bookingData ctx)).

(** [isRescheduling && bookingData?.startTime ? dayjs(..).toString() : undefined] *)
Definition formerTimeOf `{Collaborators} (ctx : Ctx) : option string :=
  match bookingData ctx ≫= bd_startTime with
  | Some st => if isRescheduling ctx then Some (dayjs_toString st) else None
  | None => None
  end.

Definition composeBookingInput (ctx : Ctx) (values : BookingFormValues)
  (data : EventData) (date : string) : BookingInput :=
  {| bi_values := values;
     bi_duration := validDuration data (duration ctx);
     bi_event := data;
     bi_date := date;
     bi_timeZone := timezone ctx;
     bi_language := language ctx;
     bi_rescheduleUid := or_undefined (rescheduleUid ctx);
     bi_bookingUid :=
       or_undefined
         (or_nullable (bookingData ctx ≫= bd_uid) (bookingUid (seatedEventData ctx)));
     bi_username := or_else (username ctx) "";
     bi_metadata := extractMetadata (routerQuery ctx) (searchParams ctx);
     bi_hashedLink := hashedLink ctx |}.

(** ** The instant-booking poller *)

(** [parseInt(getQueryParam("bookingId") || "0")] *)
Definition bookingId (w : World) : Z := default 0%Z (queryBookingId w).

(** [expiryTime && new Date(expiryTime) < new Date()], at the instant [now] *)
Definition hasInstantMeetingTokenExpired (w : World) (now : Z) : bool :=
  match expiryTime w with
  | Some e => (e <? now)%Z
  | None => false
  end.

(** The [enabled] option of the location query. *)
Definition instantBooking_enabled (w : World) (now : Z) : bool :=
  toBoolean (bookingId w) && negb (hasInstantMeetingTokenExpired w now).

Definition instantBooking_onSuccess `{Collaborators}
  (data : PollPayload RawMetadata) : M unit :=
  emit (ShowToast (t "something_went_wrong_on_our_end") ToastError);;
  match bookingMetadataSchema_parse (default emptyMetadata (booking_metadata data)) with
  | Parsed locationVideoCallUrl =>
      match locationVideoCallUrl with
      | Some url =>
          if toBoolean url then emit (RouterPush url)
          else emit (ShowToast (t "something_went_wrong_on_our_end") ToastError)
      | None => emit (ShowToast (t "something_went_wrong_on_our_end") ToastError)
      end
  | Throws => emit (ShowToast (t "something_went_wrong_on_our_end") ToastError)
  end.

(** ** The creation mutations *)

(** [bookerFormErrorRef && bookerFormErrorRef.current?.scrollIntoView(..)] *)
Definition scrollErrorIntoView (ctx : Ctx) : M unit :=
  when (errorRefMounted ctx) (emit ScrollIntoView).

Definition createBookingMutation_onSuccess `{Collaborators} (ctx : Ctx)
  (responseData : BookingResponse) : M unit :=
  w ← get_world;
  let uid := br_uid responseData in
  let paymentUid := br_paymentUid responseData in
  let fullName := getFullName (getValues w "name") in
  match paymentUid with
  | Some p =>
      when (toBoolean p)
        (emit (RouterPush (createPaymentLink
           {| pl_paymentUid := p; pl_date := timeslot ctx; pl_name := fullName;
              pl_email := getValues w "email"; pl_absolute := false |})))
  | None => mret tt
  end;;
  (if negb (toBoolean uid)
   then emit (ConsoleError "No uid returned from createBookingMutation");; early_return
   else mret tt);;
  let query :=
    {| isSuccessBookingPage := true;
       allRemainingBookings := None;
       rq_email := getValues w "email";
       eventTypeSlug := eventSlug ctx;
       seatReferenceUid :=
         Some (match br_seatReferenceUid responseData with
               | Some s => s
               | None => None
               end);
       formerTime := formerTimeOf ctx |} in
  emit (BookingSuccessRedirect
    {| ra_successRedirectUrl := or_else (event_data ctx ≫= successRedirectUrl) "";
       ra_query := query;
       ra_booking := OfSingle responseData |}).

Definition createBookingMutation_onError (ctx : Ctx) : M unit :=
  scrollErrorIntoView ctx.

Definition createInstantBookingMutation_onSuccess (responseData : InstantResponse) : M unit :=
  updateQueryParam_bookingId (ir_bookingId responseData);;
  setExpiryTime (ir_expires responseData).

Definition createInstantBookingMutation_onError (ctx : Ctx) : M unit :=
  emit (ConsoleError "Error creating instant booking");;
  scrollErrorIntoView ctx.

Definition createRecurringBookingMutation_onSuccess `{Collaborators} (ctx : Ctx)
  (responseData : list RecurringOccurrence) : M unit :=
  w ← get_world;
  let booking := default {| ro_uid := None |} (head responseData) in
  let uid := ro_uid booking in
  (if negb (toBoolean uid)
   then emit (ConsoleError "No uid returned from createRecurringBookingMutation");;
        early_return
   else mret tt);;
  let query :=
    {| isSuccessBookingPage := true;
       allRemainingBookings := Some true;
       rq_email := getValues w "email";
       eventTypeSlug := eventSlug ctx;
       seatReferenceUid := None;
       formerTime := formerTimeOf ctx |} in
  emit (BookingSuccessRedirect
    {| ra_successRedirectUrl := or_else (event_data ctx ≫= successRedirectUrl) "";
       ra_query := query;
       ra_booking := OfOccurrence booking |}).

(** [useMutation(createRecurringBooking, { onSuccess })]: no [onError]
    callback is registered for the recurring mutation. *)
Definition createRecurringBookingMutation_onError (ctx : Ctx) : M unit :=
  mret tt.

(** ** Submission *)

(** The guard of the recurring branch:
    [event.data?.recurringEvent?.freq && recurringEventCount && !rescheduleUid] *)
Definition recurringGuard (ctx : Ctx) (data : EventData) : bool :=
  toBoolean (freq <$> recurringEvent data)
  && toBoolean (recurringEventCount ctx)
  && negb (toBoolean (rescheduleUid ctx)).

(** The [if / else if / else] that ends [handleBookEvent]. In the recurring
    branch [recurringEventCount] is a number: the guard holds only when it
    is not null. *)
Definition dispatchCreation (ctx : Ctx) (data : EventData) (bookingInput : BookingInput)
  : M unit :=
  if isInstantMeeting ctx then emit (Mutate (CreateInstant bookingInput))
  else
    match recurringEventCount ctx with
    | Some n =>
        if recurringGuard ctx data
        then emit (Mutate (CreateRecurring bookingInput n))
        else emit (Mutate (CreateSingle bookingInput))
    | None => emit (Mutate (CreateSingle bookingInput))
    end.

Definition handleBookEvent `{Collaborators} (ctx : Ctx) : M unit :=
  w ← get_world;
  let values := formValues w in
  match timeslot ctx with
  | Some slot =>
      when (toBoolean slot)
        (setFormValues ∅;;
         clearErrors;;
         match event_data ctx with
         | None =>
             setError "globalError" (t "error_booking_event");;
             early_return
         | Some data =>
             let bookingInput := composeBookingInput ctx values data slot in
             dispatchCreation ctx data bookingInput;;
             setFormValues ∅;;
             clearErrors
         end)
  | None => mret tt
  end.

(** ** Observations on traces *)

(** The effects a callback adds to the trace of the world it starts in. *)
Definition effectsOf (m : M unit) (w : World) : list Effect :=
  drop (List.length (trace w)) (trace (run m w)).

Definition creationCalls (tr : list Effect) : list CreationCall :=
  omap (fun e => match e with Mutate c => Some c | _ => None end) tr.

Definition isRedirect (e : Effect) : bool :=
  match e with BookingSuccessRedirect _ => true | _ => false end.

Definition isConsoleError (e : Effect) : bool :=
  match e with ConsoleError _ => true | _ => false end.

Definition isScroll (e : Effect) : bool :=
  match e with ScrollIntoView => true | _ => false end.

(** ** Sample data for closed examples *)

Definition sampleCollaborators : Collaborators :=
  {| RawMetadata := option string;
     emptyMetadata := None;
     bookingMetadataSchema_parse := fun raw => Parsed raw;
     getFullName := fun v =>
       match v with
       | Some (RText s) => s
       | Some (RName f (Some l)) => f +:+ " " +:+ l
       | Some (RName f None) => f
       | None => ""
       end;
     createPaymentLink := fun a => "/payment/" +:+ pl_paymentUid a;
     t := fun key => key;
     dayjs_toString := fun _ => "former" |}.

Definition emptyWorld : World :=
  {| storeFormValues := ∅; formValues := {| responses := ∅ |}; formErrors := ∅;
     queryBookingId := None; expiryTime := None; trace := [] |}.

Definition sampleEvent : EventData :=
  {| isDynamic := false; ev_length := 30; metadata := None;
     recurringEvent := None; successRedirectUrl := None |}.

Definition sampleCtx : Ctx :=
  {| event_data := Some sampleEvent; hashedLink := None; eventSlug := Some "intro";
     rescheduleUid := None; bookingData := None;
     timeslot := Some "2024-01-10T09:00:00Z";
     seatedEventData := {| bookingUid := None |};
     recurringEventCount := None; isInstantMeeting := false; duration := None;
     timezone := "UTC"; username := Some "pro"; routerQuery := [];
     searchParams := Some []; language := "en"; errorRefMounted := true |}.

(** A weekly event, and a session about to book three occurrences of it. *)
Definition weeklyEvent : EventData :=
  {| isDynamic := false; ev_length := 30; metadata := None;
     recurringEvent := Some {| freq := 2; count := 12; interval := 1 |};
     successRedirectUrl := None |}.

Definition sessionOf (instant : bool) : Ctx :=
  {| event_data := Some weeklyEvent; hashedLink := None; eventSlug := Some "intro";
     rescheduleUid := None; bookingData := None; timeslot := Some "slot";
     seatedEventData := {| bookingUid := None |};
     recurringEventCount := Some 3%Z; isInstantMeeting := instant;
     duration := None; timezone := "UTC"; username := None;
     routerQuery := []; searchParams := None; language := "en";
     errorRefMounted := false |}.

(** A yearly event, whose frequency is encoded as zero, and a session
    about to book three occurrences of it. *)
Definition yearlyEvent : EventData :=
  {| isDynamic := false; ev_length := 30; metadata := None;
     recurringEvent := Some {| freq := 0; count := 12; interval := 1 |};
     successRedirectUrl := None |}.

Definition yearlySession : Ctx :=
  {| event_data := Some yearlyEvent; hashedLink := None; eventSlug := Some "intro";
     rescheduleUid := None; bookingData := None; timeslot := Some "slot";
     seatedEventData := {| bookingUid := None |};
     recurringEventCount := Some 3%Z; isInstantMeeting := false;
     duration := None; timezone := "UTC"; username := None;
     routerQuery := []; searchParams := None; language := "en";
     errorRefMounted := false |}.

(** ** Route selection, in the words of the specification *)

Inductive CreationPath := InstantPath | RecurringPath | SinglePath.

Definition pathOf (c : CreationCall) : CreationPath :=
  match c with
  | CreateInstant _ => InstantPath
  | CreateRecurring _ _ => RecurringPath
  | CreateSingle _ => SinglePath
  end.

Definition inputOf (c : CreationCall) : BookingInput :=
  match c with
  | CreateInstant i | CreateRecurring i _ | CreateSingle i => i
  end.

(** The event has a recurrence policy. *)
Definition hasRecurrencePolicy (data : EventData) : bool :=
  bool_decide (is_Some (recurringEvent data)).

(** The test the code makes of the policy, [recurringEvent?.freq]: the
    policy is there and its frequency is truthy, that is, not zero. *)
Definition recurrenceFrequencySet (data : EventData) : bool :=
  toBoolean (freq <$> recurringEvent data).

(** A recurrence count is set in the store, as the code tests it: truthy. *)
Definition recurrenceCountSet (ctx : Ctx) : bool :=
  toBoolean (recurringEventCount ctx).

(** The submission carries a reschedule reference, as the code tests it:
    [rescheduleUid] is truthy. *)
Definition isReschedule (ctx : Ctx) : bool :=
  toBoolean (rescheduleUid ctx).

Definition selectedPath (ctx : Ctx) (data : EventData) : CreationPath :=
  if isInstantMeeting ctx then InstantPath
  else if recurrenceFrequencySet data && recurrenceCountSet ctx
          && negb (isReschedule ctx)
       then RecurringPath
       else SinglePath.

(** ** Duration resolution, in the words of the specification *)

(** The user-selected duration, when one is selected, as the code tests
    it: [duration] is truthy. *)
Definition selection (duration : option Z) : option Z := or_undefined duration.

(** The allowed-duration set configured on the event (empty when the
    event has no metadata or no duration list). *)
Definition allowedDurations (data : EventData) : list Z :=
  default [] (metadata data ≫= multipleDuration).

Definition multiDurationEvent : EventData :=
  {| isDynamic := false; ev_length := 30;
     metadata := Some {| multipleDuration := Some [15; 30; 60]%Z |};
     recurringEvent := None; successRedirectUrl := None |}.

(** ** Samples for the poller *)

Definition meetingUrl : string := "https://video.example/room/42".

(** A session whose instant booking 7 expired one second before [lateNow]. *)
Definition lateNow : Z := 1700000000000.

Definition expiredWorld : World :=
  {| storeFormValues := ∅; formValues := {| responses := ∅ |}; formErrors := ∅;
     queryBookingId := Some 7%Z; expiryTime := Some (lateNow - 1000)%Z; trace := [] |}.

Definition readyPayload : PollPayload (option string) :=
  {| booking_metadata := Some (Some meetingUrl) |}.

Definition errorToast `{Collaborators} : Effect :=
  ShowToast (t "something_went_wrong_on_our_end") ToastError.

(** ** Results of the recurring creation, in the words of the specification *)

(** The occurrence sequence is empty, or its first element has no usable uid. *)
Definition lacksCanonicalUid (responseData : list RecurringOccurrence) : Prop :=
  responseData = []
  \/ exists first rest, responseData = first :: rest /\ toBoolean (ro_uid first) = false.

(** ** Outcomes of the single creation, in the words of the specification *)

(** The payment handoff: navigation to the payment link built from the
    attendee's resolved full name, the email and the selected slot. *)
Definition paymentHandoff `{Collaborators} (ctx : Ctx) (w : World) (paymentUid : string)
  : Effect :=
  RouterPush (createPaymentLink
    {| pl_paymentUid := paymentUid;
       pl_date := timeslot ctx;
       pl_name := getFullName (responses (formValues w) !! "name");
       pl_email := responses (formValues w) !! "email";
       pl_absolute := false |}).

(** The normal success redirect of a single booking. *)
Definition singleSuccessRedirect `{Collaborators} (ctx : Ctx) (w : World)
  (responseData : BookingResponse) : Effect :=
  BookingSuccessRedirect
    {| ra_successRedirectUrl := or_else (event_data ctx ≫= successRedirectUrl) "";
       ra_query :=
         {| isSuccessBookingPage := true;
            allRemainingBookings := None;
            rq_email := responses (formValues w) !! "email";
            eventTypeSlug := eventSlug ctx;
            seatReferenceUid := Some (mjoin (br_seatReferenceUid responseData));
            formerTime := formerTimeOf ctx |};
       ra_booking := OfSingle responseData |}.

(** The success redirect of a recurring booking, on its first occurrence. *)
Definition recurringSuccessRedirect `{Collaborators} (ctx : Ctx) (w : World)
  (first : RecurringOccurrence) : Effect :=
  BookingSuccessRedirect
    {| ra_successRedirectUrl := or_else (event_data ctx ≫= successRedirectUrl) "";
       ra_query :=
         {| isSuccessBookingPage := true;
            allRemainingBookings := Some true;
            rq_email := responses (formValues w) !! "email";
            eventTypeSlug := eventSlug ctx;
            seatReferenceUid := None;
            formerTime := formerTimeOf ctx |};
       ra_booking := OfOccurrence first |}.

Definition paidResponse : BookingResponse :=
  {| br_uid := Some "bk_1"; br_paymentUid := Some "pay_1"; br_seatReferenceUid := None |}.

Definition paidResponseWithoutUid : BookingResponse :=
  {| br_uid := None; br_paymentUid := Some "pay_1"; br_seatReferenceUid := None |}.

Definition filledWorld : World :=
  {| storeFormValues := {[ "name" := RText "Ada Lovelace" ]};
     formValues :=
       {| responses := {[ "name" := RText "Ada Lovelace";
                          "email" := RText "ada@example.com" ]} |};
     formErrors := {[ "globalError" := "stale" ]};
     queryBookingId := None; expiryTime := None; trace := [] |}.

(** ** Failure handling, in the words of the specification *)

(** A failure handled like a transport failure: logged, and the
    error-display surface scrolled into view. *)
Definition handledLikeTransportFailure (es : list Effect) : Prop :=
  (exists e, e ∈ es /\ isConsoleError e = true)
  /\ (exists e, e ∈ es /\ isScroll e = true).

Definition noRedirect (es : list Effect) : Prop :=
  Forall (fun e => isRedirect e = false) es.

Definition responseWithoutUid : BookingResponse :=
  {| br_uid := None; br_paymentUid := None; br_seatReferenceUid := None |}.

(** [setFormValues({}); bookingForm.clearErrors();] *)
Definition clearTransient : M unit := setFormValues ∅;; clearErrors.

(** ** Metadata extraction, in the words of the specification *)

(** A query key of the bracket pattern [metadata[<name>]]. *)
Definition bracketKey (name : string) : string := "metadata[" +:+ name +:+ "]".

Definition matchesBracketPattern (key : string) : Prop :=
  exists name, key = bracketKey name.

(** [metadata[a]=1&metadata[b]=2&other=3] *)
Definition exampleQuery : QueryObject :=
  [("metadata[a]", "1"); ("metadata[b]", "2"); ("other", "3")].


(** ** The rest of the hook *)

(** [beforeVerifyEmail]: what the verification gate runs before it opens
    its challenge. *)
Definition beforeVerifyEmail `{Collaborators} (ctx : Ctx) : M unit :=
  clearErrors;;
  match event_data ctx with
  | None =>
      setError "globalError" (t "error_booking_event");;
      early_return
  | Some _ => mret tt
  end.

(** What the hook reads of one mutation object. *)
Record MutationResult (E : Type) := {
  isError : bool;
  error : option E;
  isLoading : bool;
}.
Arguments isError {E} _.
Arguments error {E} _.
Arguments isLoading {E} _.

Record Mutations (E : Type) := {
  createBookingMutation : MutationResult E;
  createRecurringBookingMutation : MutationResult E;
  createInstantBookingMutation : MutationResult E;
}.
Arguments createBookingMutation {E} _.
Arguments createRecurringBookingMutation {E} _.
Arguments createInstantBookingMutation {E} _.

(** [IUseBookingFormErrors] *)
Record UseBookingFormErrors (E : Type) := {
  hasFormErrors : bool;
  ufe_formErrors : option string;
  dataErrors : option E;
}.
Arguments hasFormErrors {E} _.
Arguments ufe_formErrors {E} _.
Arguments dataErrors {E} _.

(** The [errors] object the hook returns. *)
Definition errors {E} `{ToBoolean E} (ms : Mutations E) (w : World)
  : UseBookingFormErrors E :=
  {| hasFormErrors :=
       isError (createBookingMutation ms)
       || isError (createRecurringBookingMutation ms)
       || isError (createInstantBookingMutation ms)
       || bool_decide (is_Some (formErrors w !! "globalError"));
     ufe_formErrors := formErrors w !! "globalError";
     dataErrors :=
       or_nullable
         (or_nullable (error (createBookingMutation ms))
            (error (createRecurringBookingMutation ms)))
         (error (createInstantBookingMutation ms)) |}.

(** Two invocations of a callback, one after the other. *)
Definition twice (m : M unit) (w : World) : World := run m (run m w).

(** ** The Booker component *)

Inductive BookerState := loading | selecting_date | selecting_time | booking.

(** [BookerLayouts.MONTH_VIEW], [WEEK_VIEW], [COLUMN_VIEW], and the
    ["mobile"] layout. *)
Inductive BookerLayout := MONTH_VIEW | WEEK_VIEW | COLUMN_VIEW | mobile.

#[global] Instance BookerState_eq_dec : EqDecision BookerState.
Proof. solve_decision. Defined.

#[global] Instance BookerLayout_eq_dec : EqDecision BookerLayout.
Proof. solve_decision. Defined.

(** The state the effect on [event], [selectedDate] and [selectedTimeslot]
    sets. *)
Definition bookerStateEffect (event_isLoading : bool)
  (selectedDate selectedTimeslot : option string) : BookerState :=
  if event_isLoading then loading
  else if negb (toBoolean selectedDate) then selecting_date
  else if negb (toBoolean selectedTimeslot) then selecting_time
  else booking.

(** What a render of [Booker] reads: the [isAway] prop, the entity, the
    event query, the booker state of the store and the layout. *)
Record BookerView := {
  props_isAway : bool;
  entity_isUnpublished : bool;
  event_isSuccess : bool;
  (** [event.data] is there *)
  event_hasData : bool;
  bookerState : BookerState;
  layout : BookerLayout;
  shouldShowFormInDialog : bool;
}.

(** The page, when it is rendered: the [visible] props of its sections and
    of the form dialog, and whether the date picker beside the event meta is
    rendered. *)
Record BookerPage := {
  bookEventFormVisible : bool;
  bookFormAsModalVisible : bool;
  datepickerSectionVisible : bool;
  metaDatePickerRendered : bool;
  largeCalendarVisible : bool;
  timeslotsVisible : bool;
}.

Inductive Rendered :=
| Away
| UnpublishedEntity
| NotFound
| Nothing
| Page (page : BookerPage).

(** The render of [BookerComponent]: its three early returns, then the
    page. *)
Definition BookerComponent (v : BookerView) : Rendered :=
  if entity_isUnpublished v then UnpublishedEntity
  else if event_isSuccess v && negb (event_hasData v) then NotFound
  else if bool_decide (bookerState v = loading) then Nothing
  else
    Page
      {| bookEventFormVisible :=
           bool_decide (bookerState v = booking) && negb (shouldShowFormInDialog v);
         bookFormAsModalVisible :=
           bool_decide (bookerState v = booking) && shouldShowFormInDialog v;
         datepickerSectionVisible :=
           bool_decide (bookerState v <> booking) && bool_decide (layout v = MONTH_VIEW);
         metaDatePickerRendered :=
           bool_decide (layout v <> MONTH_VIEW)
           && negb (bool_decide (layout v = mobile)
                    && bool_decide (bookerState v = booking));
         largeCalendarVisible := bool_decide (layout v = WEEK_VIEW);
         timeslotsVisible :=
           (bool_decide (layout v <> WEEK_VIEW)
            && bool_decide (bookerState v = selecting_time))
           || bool_decide (layout v = COLUMN_VIEW) |}.

(** [Booker]: [if (props.isAway) return <Away />] *)
Definition Booker (v : BookerView) : Rendered :=
  if props_isAway v then Away else BookerComponent v.

(** A part of the page is shown by a render when the render is the page
    and the part is visible on it. *)
Definition shows (part : BookerPage -> bool) (r : Rendered) : bool :=
  match r with
  | Page page => part page
  | _ => false
  end.

(** [addonDays], from the number of non-empty schedule days and
    [extraDays]. *)
Definition totalWeekDays : Z := 7.

Definition addonDays (nonEmptyScheduleDays_length extraDays : Z) : Z :=
  if (nonEmptyScheduleDays_length <? extraDays)%Z
  then ((extraDays - nonEmptyScheduleDays_length + 1) * totalWeekDays)%Z
  else if (nonEmptyScheduleDays_length =? extraDays)%Z then totalWeekDays
  else 0%Z.

(** The part of the store the form's [onCancel] acts on; [Rest] stands
    for the other fields of the seated-event data. *)
Record SeatedEventStore (Rest : Type) := {
  ss_bookingUid : option string;
  ss_attendees : option Z;
  ss_rest : Rest;
}.
Arguments ss_bookingUid {Rest} _.
Arguments ss_attendees {Rest} _.
Arguments ss_rest {Rest} _.

Record BookerStore (Rest : Type) := {
  selectedDate : option string;
  selectedTimeslot : option string;
  bs_seatedEventData : SeatedEventStore Rest;
}.
Arguments selectedDate {Rest} _.
Arguments selectedTimeslot {Rest} _.
Arguments bs_seatedEventData {Rest} _.

(** [onCancel] of the form:
    [setSelectedTimeslot(null); if (seatedEventData.bookingUid) setSeatedEventData(..)] *)
Definition onCancel {Rest} (s : BookerStore Rest) : BookerStore Rest :=
  {| selectedDate := selectedDate s;
     selectedTimeslot := None;
     bs_seatedEventData :=
       if toBoolean (ss_bookingUid (bs_seatedEventData s))
       then {| ss_bookingUid := None; ss_attendees := None;
               ss_rest := ss_rest (bs_seatedEventData s) |}
       else bs_seatedEventData s |}.

(** The hook reads the selected timeslot and the seated booking from the
    store. *)
Definition readStore {Rest} (ctx : Ctx) (s : BookerStore Rest) : Ctx :=
  {| event_data := event_data ctx; hashedLink := hashedLink ctx;
     eventSlug := eventSlug ctx; rescheduleUid := rescheduleUid ctx;
     bookingData := bookingData ctx;
     timeslot := selectedTimeslot s;
     seatedEventData := {| bookingUid := ss_bookingUid (bs_seatedEventData s) |};
     recurringEventCount := recurringEventCount ctx;
     isInstantMeeting := isInstantMeeting ctx; duration := duration ctx;
     timezone := timezone ctx; username := username ctx;
     routerQuery := routerQuery ctx; searchParams := searchParams ctx;
     language := language ctx; errorRefMounted := errorRefMounted ctx |}.

(** A session on a given event with a given selected duration. *)
Definition durationSession (data : EventData) (selected : option Z) : Ctx :=
  {| event_data := Some data; hashedLink := None; eventSlug := Some "intro";
     rescheduleUid := None; bookingData := None; timeslot := Some "slot";
     seatedEventData := {| bookingUid := None |};
     recurringEventCount := None; isInstantMeeting := false;
     duration := selected; timezone := "UTC"; username := None;
     routerQuery := []; searchParams := None; language := "en";
     errorRefMounted := false |}.

(** An event that lists a duration of zero among its allowed durations. *)
Definition zeroDurationEvent : EventData :=
  {| isDynamic := false; ev_length := 30;
     metadata := Some {| multipleDuration := Some [0; 30]%Z |};
     recurringEvent := None; successRedirectUrl := None |}.


(** The requests of the creation calls in a trace. *)
Definition dispatchedRequests (tr : list Effect) : list BookingInput :=
  map inputOf (creationCalls tr).

(** Sample renders: a published, loaded event with date and timeslot
    selected and the form in the dialog; and renders that are still
    loading. *)
Definition selectedView : BookerView :=
  {| props_isAway := false; entity_isUnpublished := false;
     event_isSuccess := true; event_hasData := true;
     bookerState := bookerStateEffect false (Some "2024-01-10")
                      (Some "2024-01-10T09:00:00Z");
     layout := MONTH_VIEW; shouldShowFormInDialog := true |}.


(** * Properties *)

(** ** Trace bookkeeping *)

Lemma effectsOf_app (m : M unit) (w : World) (es : list Effect) :
  trace (run m w) = trace w ++ es -> effectsOf m w = es.
Proof.
  intros E. unfold effectsOf. rewrite E. apply drop_app_length.
Qed.

Ltac unfold_hook :=
  unfold run, emit, modify, when, early_return, get_world, scrollErrorIntoView,
    setFormValues, clearErrors, setError, updateQueryParam_bookingId, setExpiryTime,
    log, mbind, mret, M_bind, M_ret in *.

Ltac trace_eq :=
  apply effectsOf_app; unfold_hook; cbn; rewrite <- ?app_assoc; reflexivity.

(** ** C1: route selection *)

Lemma dispatchCreation_emit ctx data input :
  exists c,
    dispatchCreation ctx data input = emit (Mutate c)
    /\ pathOf c = selectedPath ctx data /\ inputOf c = input.
Proof.
  unfold dispatchCreation, selectedPath, recurrenceFrequencySet, recurrenceCountSet,
    isReschedule, recurringGuard.
  destruct (isInstantMeeting ctx); [by eexists|].
  destruct (recurringEventCount ctx) as [n|].
  - destruct (toBoolean (freq <$> recurringEvent data) && toBoolean (Some n)
              && negb (toBoolean (rescheduleUid ctx))); by eexists.
  - rewrite andb_false_r. by eexists.
Qed.

Lemma clearTransient_spec w :
  let w1 := run clearTransient w in
  storeFormValues w1 = ∅ /\ formErrors w1 = ∅ /\ formValues w1 = formValues w
  /\ trace w1 = trace w ++ [SetFormValues ∅; ClearErrors].
Proof.
  unfold clearTransient. unfold_hook. cbn. rewrite <- app_assoc. done.
Qed.

(** The submission runs the creation call between two clearings. *)
Lemma handleBookEvent_run `{Collaborators} ctx w slot data :
  timeslot ctx = Some slot -> toBoolean slot = true -> event_data ctx = Some data ->
  run (handleBookEvent ctx) w =
    run clearTransient
      (run (dispatchCreation ctx data (composeBookingInput ctx (formValues w) data slot))
         (run clearTransient w)).
Proof.
  intros Hslot Htruthy Hdata.
  unfold handleBookEvent, dispatchCreation, clearTransient.
  rewrite Hslot, Hdata.
  destruct (isInstantMeeting ctx);
    [|destruct (recurringEventCount ctx) as [n|]; [destruct (recurringGuard ctx data)|]];
    unfold_hook; cbn; rewrite Htruthy; reflexivity.
Qed.

(** The whole trace of a submission that passes the two guards. *)
Lemma handleBookEvent_effects `{Collaborators} ctx w slot data :
  timeslot ctx = Some slot -> toBoolean slot = true -> event_data ctx = Some data ->
  exists c,
    run (handleBookEvent ctx) w
      = run clearTransient (run (emit (Mutate c)) (run clearTransient w))
    /\ effectsOf (handleBookEvent ctx) w =
        [SetFormValues ∅; ClearErrors; Mutate c; SetFormValues ∅; ClearErrors]
    /\ pathOf c = selectedPath ctx data
    /\ inputOf c = composeBookingInput ctx (formValues w) data slot.
Proof.
  intros Hslot Htruthy Hdata.
  destruct (dispatchCreation_emit ctx data
              (composeBookingInput ctx (formValues w) data slot))
    as (c & Hemit & Hpath & Hinput).
  pose proof (handleBookEvent_run ctx w slot data Hslot Htruthy Hdata) as Hrun.
  rewrite Hemit in Hrun.
  exists c. split; [exact Hrun|]. split; [|by split].
  apply effectsOf_app. rewrite Hrun.
  unfold clearTransient. unfold_hook. cbn. rewrite <- !app_assoc. reflexivity.
Qed.

(** C1, as the code has it. A submission with a selected timeslot and
    loaded event data makes exactly one creation call, carrying the composed
    request. The call is the instant one when the instant-meeting flag is set,
    whatever the recurrence configuration; otherwise the recurring one when
    the event's recurrence policy has a truthy (non-zero) frequency, a truthy
    recurrence count is set and there is no truthy reschedule uid; otherwise
    the single one. A policy is present whenever its frequency is truthy. *)
Theorem route_selection_exactly_one `{Collaborators} ctx w slot data :
  timeslot ctx = Some slot -> toBoolean slot = true -> event_data ctx = Some data ->
  exists c,
    creationCalls (effectsOf (handleBookEvent ctx) w) = [c]
    /\ inputOf c = composeBookingInput ctx (formValues w) data slot
    /\ (isInstantMeeting ctx = true -> pathOf c = InstantPath)
    /\ (isInstantMeeting ctx = false ->
        recurrenceFrequencySet data = true -> recurrenceCountSet ctx = true ->
        isReschedule ctx = false -> pathOf c = RecurringPath)
    /\ (isInstantMeeting ctx = false ->
        recurrenceFrequencySet data = false \/ recurrenceCountSet ctx = false
        \/ isReschedule ctx = true -> pathOf c = SinglePath)
    /\ (recurrenceFrequencySet data = true -> hasRecurrencePolicy data = true).
Proof.
  intros Hslot Htruthy Hdata.
  destruct (handleBookEvent_effects ctx w slot data Hslot Htruthy Hdata)
    as (c & _ & Heff & Hpath & Hinput).
  exists c. rewrite Heff. split; [reflexivity|]. split; [exact Hinput|].
  rewrite Hpath. unfold selectedPath.
  split; [|split; [|split]].
  - intros ->. reflexivity.
  - intros -> -> -> ->. reflexivity.
  - intros -> [-> | [-> | ->]]; cbn; rewrite ?andb_false_r; reflexivity.
  - unfold recurrenceFrequencySet, hasRecurrencePolicy.
    destruct (recurringEvent data); [reflexivity | discriminate].
Qed.

Lemma route_selection_exactly_one_witness :
  exists c,
    creationCalls
      (effectsOf (@handleBookEvent sampleCollaborators (sessionOf false)) emptyWorld) = [c]
    /\ pathOf c = RecurringPath.
Proof.
  destruct (@route_selection_exactly_one sampleCollaborators (sessionOf false) emptyWorld
              "slot" weeklyEvent eq_refl eq_refl eq_refl)
    as (c & Hc & _ & _ & Hrecurring & _).
  exists c. split; [exact Hc|]. apply Hrecurring; reflexivity.
Defined.

(** A yearly event has a recurrence policy, a count of 3 is set, the
    session is neither instant nor a reschedule, and yet the submission takes
    the single path: the frequency of the policy is the number zero, which the
    test of the recurring branch takes for absent. *)
Lemma yearly_policy_takes_single_path :
  isInstantMeeting yearlySession = false
  /\ hasRecurrencePolicy yearlyEvent = true
  /\ recurrenceCountSet yearlySession = true
  /\ isReschedule yearlySession = false
  /\ map pathOf
       (creationCalls
          (effectsOf (@handleBookEvent sampleCollaborators yearlySession) emptyWorld))
     = [SinglePath].
Proof.
  repeat split.
Qed.

(** Spec property 3: a recurrence policy, a count of 3 and no reschedule
    reference give the recurring call, with that count, and nothing else. *)
Example recurring_count_three :
  creationCalls
    (effectsOf (@handleBookEvent sampleCollaborators (sessionOf false)) emptyWorld)
  = [CreateRecurring
       (composeBookingInput (sessionOf false) {| responses := ∅ |} weeklyEvent "slot") 3].
Proof. reflexivity. Qed.

(** Spec property 4: the instant flag wins over the same configuration. *)
Example instant_over_recurring :
  map pathOf
    (creationCalls
       (effectsOf (@handleBookEvent sampleCollaborators (sessionOf true)) emptyWorld))
  = [InstantPath].
Proof. reflexivity. Qed.

(** The hook's own [isRescheduling] flag implies a reschedule reference, so
    a submission it flags as a reschedule never takes the recurring path
    unless the instant flag is set. *)
Lemma isRescheduling_isReschedule ctx :
  isRescheduling ctx = true -> isReschedule ctx = true.
Proof.
  unfold isRescheduling, isReschedule. intros E.
  apply andb_true_iff in E. tauto.
Qed.

(** The three tests are truthiness tests: a frequency or a count of zero
    and an empty reschedule uid count as absent. *)
Remark selectedPath_truthiness ctx data policy :
  isInstantMeeting ctx = false ->
  (recurringEvent data = Some policy -> freq policy = 0%Z ->
   selectedPath ctx data = SinglePath)
  /\ (recurringEventCount ctx = Some 0%Z -> selectedPath ctx data = SinglePath)
  /\ (rescheduleUid ctx = Some "" -> recurrenceFrequencySet data = true ->
      recurrenceCountSet ctx = true -> selectedPath ctx data = RecurringPath).
Proof.
  intros Hinstant. unfold selectedPath, recurrenceFrequencySet, recurrenceCountSet,
    isReschedule. rewrite Hinstant. repeat split.
  - intros -> Hfreq. cbn. unfold toBoolean, number_ToBoolean. by rewrite Hfreq.
  - intros ->. cbn. by rewrite andb_false_r.
  - intros -> -> ->. reflexivity.
Qed.

(** Spec property 5: without a selected slot nothing happens at all. *)
Lemma handleBookEvent_no_slot `{Collaborators} ctx w :
  toBoolean (timeslot ctx) = false -> run (handleBookEvent ctx) w = w.
Proof.
  unfold handleBookEvent. destruct (timeslot ctx) as [slot|]; cbn.
  - intros ->. reflexivity.
  - reflexivity.
Qed.

(** Without event data the submission stops at the global error. *)
Lemma handleBookEvent_no_event `{Collaborators} ctx w :
  toBoolean (timeslot ctx) = true -> event_data ctx = None ->
  effectsOf (handleBookEvent ctx) w =
    [SetFormValues ∅; ClearErrors; SetError "globalError" (t "error_booking_event")].
Proof.
  unfold handleBookEvent. destruct (timeslot ctx) as [slot|]; cbn; [|done].
  intros Hs ->. apply effectsOf_app. unfold_hook. cbn. rewrite Hs. cbn.
  rewrite <- ?app_assoc. reflexivity.
Qed.

(** ** C2: duration resolution *)

Lemma multipleDuration_includes_allowed data d :
  toBoolean (multipleDuration_includes data d) = bool_decide (d ∈ allowedDurations data).
Proof.
  unfold multipleDuration_includes, allowedDurations.
  destruct (metadata data) as [md|]; cbn.
  - destruct (multipleDuration md) as [l|]; cbn; [reflexivity|].
    symmetry. apply bool_decide_eq_false. apply not_elem_of_nil.
  - symmetry. apply bool_decide_eq_false. apply not_elem_of_nil.
Qed.

(** The resolution itself, by cases. *)
Lemma validDuration_policy data duration :
  (isDynamic data = true ->
     validDuration data duration = default (ev_length data) (selection duration))
  /\ (isDynamic data = false ->
      forall d, selection duration = Some d -> d ∈ allowedDurations data ->
      validDuration data duration = d)
  /\ (isDynamic data = false ->
      (forall d, selection duration = Some d -> d ∉ allowedDurations data) ->
      validDuration data duration = ev_length data).
Proof.
  unfold validDuration, selection, or_undefined, or_else.
  repeat split.
  - intros ->. destruct duration as [d|]; cbn; [|reflexivity].
    destruct (toBoolean d); reflexivity.
  - intros -> d Hsel Hin. destruct duration as [d'|]; cbn in *; [|discriminate].
    destruct (toBoolean d') eqn:E; [|discriminate].
    injection Hsel as ->. rewrite multipleDuration_includes_allowed.
    rewrite bool_decide_eq_true_2 by exact Hin. reflexivity.
  - intros -> Hout. destruct duration as [d|]; cbn in *; [|reflexivity].
    destruct (toBoolean d) eqn:E; cbn; [|reflexivity].
    rewrite multipleDuration_includes_allowed.
    rewrite bool_decide_eq_false_2 by (apply Hout; reflexivity). reflexivity.
Qed.

Example validDuration_policy_example :
  validDuration multiDurationEvent (Some 60%Z) = 60%Z
  /\ validDuration multiDurationEvent (Some 45%Z) = ev_length multiDurationEvent.
Proof. split; reflexivity. Qed.

(** C2, as the code has it. The request composed for a submission, and so
    the request of the creation call the submission dispatches, has this
    resolved duration: for a dynamic event the selected duration when one is
    selected, that is, not null and not zero, and the event's length
    otherwise; for any other event the selected duration when it is not zero
    and a member of the allowed durations, and the event's length for every
    other selection and for no selection. *)
Theorem composed_duration_policy `{Collaborators} ctx w slot data :
  timeslot ctx = Some slot -> toBoolean slot = true -> event_data ctx = Some data ->
  exists request,
    dispatchedRequests (effectsOf (handleBookEvent ctx) w) = [request]
    /\ request = composeBookingInput ctx (formValues w) data slot
    /\ (isDynamic data = true ->
        bi_duration request = default (ev_length data) (selection (duration ctx)))
    /\ (isDynamic data = false ->
        forall d, selection (duration ctx) = Some d -> d ∈ allowedDurations data ->
        bi_duration request = d)
    /\ (isDynamic data = false ->
        (forall d, selection (duration ctx) = Some d -> d ∉ allowedDurations data) ->
        bi_duration request = ev_length data)
    /\ (forall d, selection (duration ctx) = Some d <-> duration ctx = Some d /\ d <> 0%Z).
Proof.
  intros Hslot Htruthy Hdata.
  destruct (handleBookEvent_effects ctx w slot data Hslot Htruthy Hdata)
    as (c & _ & Heff & _ & Hinput).
  exists (inputOf c). unfold dispatchedRequests. rewrite Heff.
  split; [reflexivity|]. split; [exact Hinput|].
  rewrite Hinput. cbn [composeBookingInput bi_duration].
  destruct (validDuration_policy data (duration ctx)) as (Hdyn & Hin & Hout).
  split; [exact Hdyn|]. split; [exact Hin|]. split; [exact Hout|].
  intros d. unfold selection, or_undefined.
  destruct (duration ctx) as [d'|]; cbn; [|split; [discriminate | intros [? _]; discriminate]].
  unfold toBoolean, number_ToBoolean.
  destruct (Z.eqb_spec d' 0) as [->|Hne]; cbn.
  - split; [discriminate | intros [[= <-] Hd]; done].
  - split; [intros [= <-]; done | intros [[= <-] _]; done].
Qed.

Lemma composed_duration_policy_witness :
  map bi_duration
    (dispatchedRequests
       (effectsOf (@handleBookEvent sampleCollaborators
                     (durationSession multiDurationEvent (Some 60%Z))) emptyWorld))
  = [60%Z].
Proof.
  destruct (@composed_duration_policy sampleCollaborators
              (durationSession multiDurationEvent (Some 60%Z)) emptyWorld "slot"
              multiDurationEvent eq_refl eq_refl eq_refl)
    as (request & -> & _ & _ & Hin & _).
  cbn [map]. f_equal. apply (Hin eq_refl 60%Z); [reflexivity|].
  apply (bool_decide_unpack _). vm_compute. exact I.
Defined.

(** The event is not dynamic and lists a duration of zero, the user's
    selection is that zero, a member of the allowed durations, and yet the
    request carries the event's length of 30. *)
Lemma listed_zero_duration_overridden :
  isDynamic zeroDurationEvent = false
  /\ duration (durationSession zeroDurationEvent (Some 0%Z)) = Some 0%Z
  /\ 0%Z ∈ allowedDurations zeroDurationEvent
  /\ map bi_duration
       (dispatchedRequests
          (effectsOf (@handleBookEvent sampleCollaborators
                        (durationSession zeroDurationEvent (Some 0%Z))) emptyWorld))
     = [30%Z].
Proof.
  split; [reflexivity|]. split; [reflexivity|]. split; [|reflexivity].
  apply (bool_decide_unpack _). vm_compute. exact I.
Qed.

(** The membership test of the code treats a selection of zero minutes as
    no selection, also when zero is listed. *)
Remark validDuration_zero data :
  validDuration data (Some 0%Z) = ev_length data.
Proof.
  unfold validDuration. destruct (isDynamic data); reflexivity.
Qed.

(** ** The poll callback *)

(** What the callback does, by outcome of the metadata parse. *)
Lemma instantBooking_onSuccess_effects `{Collaborators} data w :
  effectsOf (instantBooking_onSuccess data) w =
    errorToast ::
    match bookingMetadataSchema_parse (default emptyMetadata (booking_metadata data)) with
    | Parsed (Some url) => if toBoolean url then [RouterPush url] else [errorToast]
    | Parsed None => [errorToast]
    | Throws => [errorToast]
    end.
Proof.
  unfold instantBooking_onSuccess, errorToast.
  destruct (bookingMetadataSchema_parse _) as [|[url|]].
  - trace_eq.
  - destruct (toBoolean url); trace_eq.
  - trace_eq.
Qed.


(** A created instant booking arms the poller: the booking id goes to the
    URL and the expiry is recorded, so the location query is enabled exactly
    until the expiry has passed. *)
Lemma createInstantBookingMutation_onSuccess_arms responseData w now :
  let w' := run (createInstantBookingMutation_onSuccess responseData) w in
  effectsOf (createInstantBookingMutation_onSuccess responseData) w
    = [UpdateQueryParam "bookingId" (ir_bookingId responseData);
       SetExpiryTime (ir_expires responseData)]
  /\ instantBooking_enabled w' now
     = toBoolean (ir_bookingId responseData) && negb (ir_expires responseData <? now)%Z.
Proof.
  unfold createInstantBookingMutation_onSuccess.
  split; [trace_eq | reflexivity].
Qed.

(** ** C3: expiry of the instant booking *)

(** C3, as the code has it. Once the stored expiry instant is in the past
    the location query is not enabled, whatever the booking id. The success
    callback does not look at the expiry: its effects are the same in every
    world, and a payload with a location URL that reaches it makes it
    navigate there. *)
Theorem expired_poll_disabled_callback_unguarded `{Collaborators} w now :
  (hasInstantMeetingTokenExpired w now = true -> instantBooking_enabled w now = false)
  /\ (forall data w', effectsOf (instantBooking_onSuccess data) w
                      = effectsOf (instantBooking_onSuccess data) w')
  /\ (forall data url,
        bookingMetadataSchema_parse (default emptyMetadata (booking_metadata data))
          = Parsed (Some url) ->
        toBoolean url = true ->
        effectsOf (instantBooking_onSuccess data) w = [errorToast; RouterPush url]).
Proof.
  repeat split.
  - unfold instantBooking_enabled. intros ->. apply andb_false_r.
  - intros data w'. rewrite !instantBooking_onSuccess_effects. reflexivity.
  - intros data url Hparse Hurl. rewrite instantBooking_onSuccess_effects.
    rewrite Hparse, Hurl. reflexivity.
Qed.

Lemma expired_poll_disabled_callback_unguarded_witness :
  instantBooking_enabled expiredWorld lateNow = false
  /\ effectsOf (@instantBooking_onSuccess sampleCollaborators readyPayload) expiredWorld
     = [@errorToast sampleCollaborators; RouterPush meetingUrl].
Proof.
  pose proof (@expired_poll_disabled_callback_unguarded sampleCollaborators
                expiredWorld lateNow) as (Hoff & _ & Hnav).
  split.
  - apply Hoff. reflexivity.
  - apply (Hnav readyPayload meetingUrl); reflexivity.
Defined.

(** With the expiry one second in the past the poll is disabled, and yet
    a successful payload handed to the callback triggers the navigation. *)
Lemma late_success_after_expiry_navigates :
  expiryTime expiredWorld = Some (lateNow - 1000)%Z
  /\ hasInstantMeetingTokenExpired expiredWorld lateNow = true
  /\ instantBooking_enabled expiredWorld lateNow = false
  /\ RouterPush meetingUrl
       ∈ effectsOf (@instantBooking_onSuccess sampleCollaborators readyPayload) expiredWorld.
Proof.
  repeat split; try reflexivity.
  rewrite instantBooking_onSuccess_effects. cbn. set_solver.
Qed.

(** ** C5: what the poll callback surfaces *)

(** C5, at a response that carries a valid location URL: the callback
    navigates to it, but only after showing the error toast, which it shows
    on every response. *)
Theorem poll_success_with_url_shows_error_toast :
  effectsOf (@instantBooking_onSuccess sampleCollaborators readyPayload) emptyWorld
  = [ShowToast "something_went_wrong_on_our_end" ToastError; RouterPush meetingUrl].
Proof.
  rewrite instantBooking_onSuccess_effects. reflexivity.
Qed.

(** The toast does not depend on the response. *)
Lemma instantBooking_onSuccess_always_toasts `{Collaborators} data w :
  head (effectsOf (instantBooking_onSuccess data) w) = Some errorToast.
Proof.
  rewrite instantBooking_onSuccess_effects. reflexivity.
Qed.

(** A malformed payload or an absent URL gives a second toast and no
    navigation. *)
Lemma instantBooking_onSuccess_not_ready `{Collaborators} data w :
  or_undefined
    (match bookingMetadataSchema_parse (default emptyMetadata (booking_metadata data)) with
     | Parsed u => u
     | Throws => None
     end) = None ->
  effectsOf (instantBooking_onSuccess data) w = [errorToast; errorToast].
Proof.
  rewrite instantBooking_onSuccess_effects.
  destruct (bookingMetadataSchema_parse _) as [|[url|]]; cbn; try done.
  unfold or_undefined. cbn. destruct (toBoolean url); [discriminate | done].
Qed.

(** ** The success callbacks of the creation mutations *)

Lemma createRecurringBookingMutation_onSuccess_effects `{Collaborators} ctx responseData w :
  effectsOf (createRecurringBookingMutation_onSuccess ctx responseData) w =
    match head responseData with
    | Some first =>
        if toBoolean (ro_uid first) then [recurringSuccessRedirect ctx w first]
        else [ConsoleError "No uid returned from createRecurringBookingMutation"]
    | None => [ConsoleError "No uid returned from createRecurringBookingMutation"]
    end.
Proof.
  unfold createRecurringBookingMutation_onSuccess, recurringSuccessRedirect, getValues.
  destruct (head responseData) as [[[[|a u]|]]|]; trace_eq.
Qed.

Lemma createBookingMutation_onSuccess_effects `{Collaborators} ctx responseData w :
  effectsOf (createBookingMutation_onSuccess ctx responseData) w =
    match or_undefined (br_paymentUid responseData) with
    | Some p => [paymentHandoff ctx w p]
    | None => []
    end ++
    (if toBoolean (br_uid responseData) then [singleSuccessRedirect ctx w responseData]
     else [ConsoleError "No uid returned from createBookingMutation"]).
Proof.
  unfold createBookingMutation_onSuccess, paymentHandoff, singleSuccessRedirect,
    getValues, or_undefined.
  destruct responseData as [uid pay seat]. cbn [br_uid br_paymentUid br_seatReferenceUid].
  destruct pay as [p|]; [destruct p as [|a p]|]; destruct uid as [[|b u]|];
    destruct seat as [[s|]|]; trace_eq.
Qed.

(** The success callbacks change nothing but the trace. *)
Lemma createBookingMutation_onSuccess_state `{Collaborators} ctx responseData w :
  let w' := run (createBookingMutation_onSuccess ctx responseData) w in
  storeFormValues w' = storeFormValues w /\ formValues w' = formValues w
  /\ formErrors w' = formErrors w.
Proof.
  unfold createBookingMutation_onSuccess.
  destruct responseData as [uid pay seat]. cbn [br_uid br_paymentUid br_seatReferenceUid].
  destruct pay as [p|]; [destruct p as [|a p]|]; destruct uid as [[|b u]|];
    unfold_hook; cbn; done.
Qed.

Lemma createRecurringBookingMutation_onSuccess_state `{Collaborators} ctx responseData w :
  let w' := run (createRecurringBookingMutation_onSuccess ctx responseData) w in
  storeFormValues w' = storeFormValues w /\ formValues w' = formValues w
  /\ formErrors w' = formErrors w.
Proof.
  unfold createRecurringBookingMutation_onSuccess.
  destruct (head responseData) as [[[[|a u]|]]|]; unfold_hook; cbn; done.
Qed.

Lemma lacksCanonicalUid_head responseData :
  lacksCanonicalUid responseData <->
  toBoolean (head responseData ≫= ro_uid) = false.
Proof.
  unfold lacksCanonicalUid. split.
  - intros [-> | (first & rest & -> & E)]; [reflexivity | exact E].
  - destruct responseData as [|first rest]; [by left|].
    intros E. right. by exists first, rest.
Qed.

Lemma recurring_missing_uid_effects `{Collaborators} ctx responseData w :
  lacksCanonicalUid responseData ->
  effectsOf (createRecurringBookingMutation_onSuccess ctx responseData) w
    = [ConsoleError "No uid returned from createRecurringBookingMutation"]
  /\ noRedirect (effectsOf (createRecurringBookingMutation_onSuccess ctx responseData) w).
Proof.
  intros Hlack. apply lacksCanonicalUid_head in Hlack.
  assert (effectsOf (createRecurringBookingMutation_onSuccess ctx responseData) w
          = [ConsoleError "No uid returned from createRecurringBookingMutation"]) as E.
  { rewrite createRecurringBookingMutation_onSuccess_effects.
    destruct (head responseData) as [first|]; cbn in *; [|reflexivity].
    change (@toBoolean (option string) nullable_ToBoolean (ro_uid first) = false) in Hlack.
    rewrite Hlack. reflexivity. }
  split; [exact E|]. rewrite E. repeat constructor.
Qed.

(** ** C4: a recurring result without a canonical uid *)

(** C4. When the occurrence sequence of a recurring result is empty, or its
    first element has no usable uid, the callback only logs the failure: no
    success redirect is dispatched. *)
Theorem recurring_without_uid_no_redirect `{Collaborators} ctx responseData w :
  lacksCanonicalUid responseData ->
  effectsOf (createRecurringBookingMutation_onSuccess ctx responseData) w
    = [ConsoleError "No uid returned from createRecurringBookingMutation"]
  /\ noRedirect (effectsOf (createRecurringBookingMutation_onSuccess ctx responseData) w).
Proof.
  intros [-> | (first & rest & -> & Huid)].
  - rewrite createRecurringBookingMutation_onSuccess_effects. cbn.
    split; [reflexivity | repeat constructor].
  - rewrite createRecurringBookingMutation_onSuccess_effects. cbn.
    rewrite Huid. split; [reflexivity | repeat constructor].
Qed.

Lemma recurring_without_uid_no_redirect_witness :
  noRedirect
    (effectsOf (@createRecurringBookingMutation_onSuccess sampleCollaborators sampleCtx [])
       emptyWorld)
  /\ noRedirect
       (effectsOf (@createRecurringBookingMutation_onSuccess sampleCollaborators sampleCtx
                     [{| ro_uid := Some "" |}; {| ro_uid := Some "occ_2" |}])
          emptyWorld).
Proof.
  split.
  - apply (@recurring_without_uid_no_redirect sampleCollaborators sampleCtx [] emptyWorld).
    left. reflexivity.
  - apply (@recurring_without_uid_no_redirect sampleCollaborators sampleCtx
             [{| ro_uid := Some "" |}; {| ro_uid := Some "occ_2" |}] emptyWorld).
    right. eexists _, _. split; reflexivity.
Defined.

(** With a usable first uid the redirect is dispatched, on the first
    occurrence. *)
Lemma recurring_with_uid_redirects `{Collaborators} ctx first rest w :
  toBoolean (ro_uid first) = true ->
  effectsOf (createRecurringBookingMutation_onSuccess ctx (first :: rest)) w
    = [recurringSuccessRedirect ctx w first].
Proof.
  intros E. rewrite createRecurringBookingMutation_onSuccess_effects. cbn.
  rewrite E. reflexivity.
Qed.

(** Spec property 10: a single result with a uid and no payment reference
    gives the success redirect alone, with the success flag and the submitted
    email in its query. *)
Example single_success_redirects :
  exists args,
    effectsOf
      (@createBookingMutation_onSuccess sampleCollaborators sampleCtx
         {| br_uid := Some "bk_1"; br_paymentUid := None; br_seatReferenceUid := None |})
      filledWorld = [BookingSuccessRedirect args]
    /\ isSuccessBookingPage (ra_query args) = true
    /\ rq_email (ra_query args) = Some (RText "ada@example.com").
Proof.
  eexists. split; [|split].
  - rewrite createBookingMutation_onSuccess_effects. reflexivity.
  - reflexivity.
  - reflexivity.
Qed.

(** ** C6: payment handoff and success redirect *)

(** What the callback does on a result with a payment reference: it first
    issues the payment handoff, a navigation to the payment link built from
    the attendee's resolved full name, the email and the selected slot, and
    then goes on to the uid check: the block of the payment push has no
    [return]. *)
Lemma payment_handoff_then_redirect `{Collaborators} ctx responseData w p :
  br_paymentUid responseData = Some p -> toBoolean p = true ->
  effectsOf (createBookingMutation_onSuccess ctx responseData) w =
    paymentHandoff ctx w p ::
    (if toBoolean (br_uid responseData)
     then [singleSuccessRedirect ctx w responseData]
     else [ConsoleError "No uid returned from createBookingMutation"]).
Proof.
  intros Hpay Hp. rewrite createBookingMutation_onSuccess_effects.
  unfold or_undefined. rewrite Hpay. cbn. rewrite Hp. reflexivity.
Qed.

Lemma payment_handoff_then_redirect_witness :
  effectsOf (@createBookingMutation_onSuccess sampleCollaborators sampleCtx paidResponse)
    filledWorld
  = [@paymentHandoff sampleCollaborators sampleCtx filledWorld "pay_1";
     @singleSuccessRedirect sampleCollaborators sampleCtx filledWorld paidResponse].
Proof.
  apply (@payment_handoff_then_redirect sampleCollaborators sampleCtx paidResponse
           filledWorld "pay_1"); reflexivity.
Defined.

(** C6, at a result with both a payment reference and a uid: the callback
    issues the payment handoff and then, having fallen through the block of
    the payment push, dispatches the normal success redirect alongside it. *)
Theorem payment_and_redirect_both_dispatched :
  let es := effectsOf
              (@createBookingMutation_onSuccess sampleCollaborators sampleCtx paidResponse)
              filledWorld in
  es !! 0%nat = Some (RouterPush "/payment/pay_1")
  /\ (exists args, es !! 1%nat = Some (BookingSuccessRedirect args))
  /\ ~ noRedirect es.
Proof.
  cbv zeta. rewrite createBookingMutation_onSuccess_effects. cbn.
  split; [reflexivity|]. split; [eexists; reflexivity|].
  intros Hno. apply Forall_cons in Hno as [_ Hno].
  apply Forall_cons in Hno as [Hno _]. discriminate.
Qed.

(** ** C10: a payment reference without a uid *)

(** C10. When the single result carries a payment reference but no usable
    uid, the callback issues the payment-link navigation and then logs the
    missing uid to the console; it does nothing else: no success redirect, no
    toast, no form error, no scrolling. *)
Theorem payment_without_uid `{Collaborators} ctx responseData w p :
  br_paymentUid responseData = Some p -> toBoolean p = true ->
  toBoolean (br_uid responseData) = false ->
  effectsOf (createBookingMutation_onSuccess ctx responseData) w
    = [paymentHandoff ctx w p; ConsoleError "No uid returned from createBookingMutation"]
  /\ noRedirect (effectsOf (createBookingMutation_onSuccess ctx responseData) w)
  /\ formErrors (run (createBookingMutation_onSuccess ctx responseData) w) = formErrors w.
Proof.
  intros Hpay Hp Huid.
  assert (effectsOf (createBookingMutation_onSuccess ctx responseData) w
    = [paymentHandoff ctx w p; ConsoleError "No uid returned from createBookingMutation"])
    as E.
  { rewrite createBookingMutation_onSuccess_effects.
    unfold or_undefined. rewrite Hpay. cbn. rewrite Hp, Huid. reflexivity. }
  split; [exact E|]. split.
  - rewrite E. repeat constructor.
  - apply createBookingMutation_onSuccess_state.
Qed.

Lemma payment_without_uid_witness :
  effectsOf
    (@createBookingMutation_onSuccess sampleCollaborators sampleCtx paidResponseWithoutUid)
    filledWorld
  = [RouterPush "/payment/pay_1"; ConsoleError "No uid returned from createBookingMutation"].
Proof.
  apply (@payment_without_uid sampleCollaborators sampleCtx paidResponseWithoutUid
           filledWorld "pay_1"); reflexivity.
Defined.

(** ** The error callbacks *)

Lemma createBookingMutation_onError_effects ctx w :
  effectsOf (createBookingMutation_onError ctx) w
    = if errorRefMounted ctx then [ScrollIntoView] else [].
Proof.
  unfold createBookingMutation_onError. destruct (errorRefMounted ctx) eqn:E.
  - apply effectsOf_app. unfold_hook. rewrite E. reflexivity.
  - apply effectsOf_app. unfold_hook. rewrite E. cbn. by rewrite app_nil_r.
Qed.

Lemma createInstantBookingMutation_onError_effects ctx w :
  effectsOf (createInstantBookingMutation_onError ctx) w
    = ConsoleError "Error creating instant booking"
      :: (if errorRefMounted ctx then [ScrollIntoView] else []).
Proof.
  unfold createInstantBookingMutation_onError. destruct (errorRefMounted ctx) eqn:E.
  - apply effectsOf_app. unfold_hook. rewrite E. cbn. by rewrite <- app_assoc.
  - apply effectsOf_app. unfold_hook. rewrite E. reflexivity.
Qed.

Lemma createRecurringBookingMutation_onError_effects ctx w :
  effectsOf (createRecurringBookingMutation_onError ctx) w = [].
Proof.
  apply effectsOf_app. unfold createRecurringBookingMutation_onError.
  unfold_hook. cbn. by rewrite app_nil_r.
Qed.

Lemma onError_formValues ctx w :
  formValues (run (createBookingMutation_onError ctx) w) = formValues w
  /\ formValues (run (createInstantBookingMutation_onError ctx) w) = formValues w
  /\ formValues (run (createRecurringBookingMutation_onError ctx) w) = formValues w.
Proof.
  unfold createBookingMutation_onError, createInstantBookingMutation_onError,
    createRecurringBookingMutation_onError.
  unfold_hook. destruct (errorRefMounted ctx); cbn; done.
Qed.

(** ** C7: how failed creation attempts are handled *)

(** C7, as the code has it. With the error surface mounted, a rejected
    instant creation is logged and scrolls the error surface into view, and a
    rejected single creation scrolls it into view. A single or recurring
    result without a usable uid is logged to the console and dispatches no
    success redirect; that branch does not scroll the error surface. *)
Theorem failed_creation_handling `{Collaborators} ctx w :
  (errorRefMounted ctx = true ->
     handledLikeTransportFailure (effectsOf (createInstantBookingMutation_onError ctx) w)
     /\ ScrollIntoView ∈ effectsOf (createBookingMutation_onError ctx) w)
  /\ (forall responseData,
        toBoolean (br_uid responseData) = false ->
        let es := effectsOf (createBookingMutation_onSuccess ctx responseData) w in
        ConsoleError "No uid returned from createBookingMutation" ∈ es
        /\ noRedirect es /\ Forall (fun e => isScroll e = false) es)
  /\ (forall responseData,
        lacksCanonicalUid responseData ->
        let es := effectsOf (createRecurringBookingMutation_onSuccess ctx responseData) w in
        ConsoleError "No uid returned from createRecurringBookingMutation" ∈ es
        /\ noRedirect es /\ Forall (fun e => isScroll e = false) es).
Proof.
  split; [|split].
  - intros Hmounted. split; [split|].
    + exists (ConsoleError "Error creating instant booking").
      rewrite createInstantBookingMutation_onError_effects. split; [set_solver | done].
    + exists ScrollIntoView.
      rewrite createInstantBookingMutation_onError_effects, Hmounted.
      split; [set_solver | done].
    + rewrite createBookingMutation_onError_effects, Hmounted. set_solver.
  - intros responseData Huid. cbv zeta.
    rewrite createBookingMutation_onSuccess_effects, Huid.
    unfold noRedirect, paymentHandoff.
    destruct (or_undefined (br_paymentUid responseData));
      (split; [set_solver | split; repeat constructor]).
  - intros responseData Hlack. cbv zeta.
    destruct (recurring_missing_uid_effects ctx responseData w Hlack) as [-> _].
    split; [set_solver | split; repeat constructor].
Qed.

Lemma failed_creation_handling_witness :
  handledLikeTransportFailure
    (effectsOf (createInstantBookingMutation_onError sampleCtx) emptyWorld)
  /\ noRedirect
       (effectsOf
          (@createBookingMutation_onSuccess sampleCollaborators sampleCtx responseWithoutUid)
          emptyWorld)
  /\ noRedirect
       (effectsOf (@createRecurringBookingMutation_onSuccess sampleCollaborators sampleCtx [])
          emptyWorld).
Proof.
  pose proof (@failed_creation_handling sampleCollaborators sampleCtx emptyWorld)
    as (Hreject & Hsingle & Hrecurring).
  split; [|split].
  - apply Hreject. reflexivity.
  - apply (Hsingle responseWithoutUid). reflexivity.
  - apply (Hrecurring []). left. reflexivity.
Defined.

(** Three failed attempts that are not handled like a transport failure,
    all with the error surface mounted: a rejected single creation is not
    logged, a single result without uid does not scroll the error surface,
    and a rejected recurring creation does neither. *)
Lemma failures_not_handled_alike :
  errorRefMounted sampleCtx = true
  /\ effectsOf (createBookingMutation_onError sampleCtx) emptyWorld = [ScrollIntoView]
  /\ ~ handledLikeTransportFailure
        (effectsOf (createBookingMutation_onError sampleCtx) emptyWorld)
  /\ ~ handledLikeTransportFailure
        (effectsOf
           (@createBookingMutation_onSuccess sampleCollaborators sampleCtx responseWithoutUid)
           emptyWorld)
  /\ ~ handledLikeTransportFailure
        (effectsOf (createRecurringBookingMutation_onError sampleCtx) emptyWorld).
Proof.
  split; [reflexivity|]. split; [reflexivity|]. split; [|split].
  - rewrite createBookingMutation_onError_effects. cbn.
    intros [(e & He & Hlog) _]. apply list_elem_of_singleton in He as ->. discriminate.
  - rewrite createBookingMutation_onSuccess_effects. cbn.
    intros [_ (e & He & Hscroll)]. apply list_elem_of_singleton in He as ->. discriminate.
  - rewrite createRecurringBookingMutation_onError_effects.
    intros [(e & He & _) _]. by apply elem_of_nil in He.
Qed.


(** ** C8: what a failure keeps and what a submission clears *)

(** A submission that dispatches a creation call is one that passed both
    guards. *)
Lemma handleBookEvent_dispatch_inv `{Collaborators} ctx w c :
  Mutate c ∈ effectsOf (handleBookEvent ctx) w ->
  exists slot data,
    timeslot ctx = Some slot /\ toBoolean slot = true /\ event_data ctx = Some data.
Proof.
  intros Hin.
  destruct (toBoolean (timeslot ctx)) eqn:Hslot.
  - destruct (event_data ctx) as [data|] eqn:Hdata.
    + destruct (timeslot ctx) as [slot|]; [|discriminate]. by exists slot, data.
    + rewrite (handleBookEvent_no_event ctx w Hslot Hdata) in Hin.
      rewrite !elem_of_cons in Hin.
      destruct Hin as [?|[?|[?|Hnil]]]; try discriminate. by apply elem_of_nil in Hnil.
  - unfold effectsOf in Hin. rewrite (handleBookEvent_no_slot ctx w Hslot) in Hin.
    rewrite drop_all in Hin. by apply elem_of_nil in Hin.
Qed.

(** C8. The handling of a failed creation (the error callbacks, and the
    success callbacks, which also handle a result without a usable uid)
    leaves the values of the form as they were. A submission that dispatches
    a creation call has emptied the form-value cache of the store and cleared
    the form errors before the call: the call is made in a world where both
    are empty, right after the two clearing effects, and with the form values
    as they were before the submission. Every submission with a selected
    slot starts with the two clearing effects. *)
Theorem failure_keeps_form_submission_clears `{Collaborators} ctx w :
  (formValues (run (createBookingMutation_onError ctx) w) = formValues w
   /\ formValues (run (createInstantBookingMutation_onError ctx) w) = formValues w
   /\ formValues (run (createRecurringBookingMutation_onError ctx) w) = formValues w
   /\ (forall responseData,
         formValues (run (createBookingMutation_onSuccess ctx responseData) w)
         = formValues w)
   /\ (forall responseData,
         formValues (run (createRecurringBookingMutation_onSuccess ctx responseData) w)
         = formValues w))
  /\ (forall c,
        Mutate c ∈ effectsOf (handleBookEvent ctx) w ->
        let w1 := run clearTransient w in
        storeFormValues w1 = ∅ /\ formErrors w1 = ∅ /\ formValues w1 = formValues w
        /\ run (handleBookEvent ctx) w = run clearTransient (run (emit (Mutate c)) w1)
        /\ effectsOf (handleBookEvent ctx) w
           = [SetFormValues ∅; ClearErrors; Mutate c; SetFormValues ∅; ClearErrors])
  /\ (toBoolean (timeslot ctx) = true ->
      take 2 (effectsOf (handleBookEvent ctx) w) = [SetFormValues ∅; ClearErrors]).
Proof.
  split; [|split].
  - destruct (onError_formValues ctx w) as (E1 & E2 & E3).
    repeat split; try assumption.
    + intros responseData. apply createBookingMutation_onSuccess_state.
    + intros responseData. apply createRecurringBookingMutation_onSuccess_state.
  - intros c Hin. cbv zeta.
    destruct (handleBookEvent_dispatch_inv ctx w c Hin) as (slot & data & Hs & Ht & Hd).
    destruct (handleBookEvent_effects ctx w slot data Hs Ht Hd)
      as (c' & Hrun & Heff & _ & _).
    assert (c = c') as <-.
    { rewrite Heff in Hin. rewrite !elem_of_cons in Hin.
      destruct Hin as [?|[?|[E|[?|[?|Hnil]]]]]; try discriminate.
      - by injection E.
      - by apply elem_of_nil in Hnil. }
    destruct (clearTransient_spec w) as (Hstore & Herr & Hform & _).
    repeat split; assumption.
  - intros Hslot. destruct (event_data ctx) as [data|] eqn:Hdata.
    + destruct (timeslot ctx) as [slot|] eqn:Hs; [|discriminate].
      destruct (handleBookEvent_effects ctx w slot data Hs Hslot Hdata)
        as (c & _ & -> & _). reflexivity.
    + rewrite (handleBookEvent_no_event ctx w Hslot Hdata). reflexivity.
Qed.

Lemma failure_keeps_form_submission_clears_witness :
  storeFormValues filledWorld <> ∅ /\ formErrors filledWorld <> ∅
  /\ (let w1 := run clearTransient filledWorld in
      storeFormValues w1 = ∅ /\ formErrors w1 = ∅
      /\ formValues w1 = formValues filledWorld)
  /\ formValues (run (createBookingMutation_onError sampleCtx) filledWorld)
     = formValues filledWorld.
Proof.
  pose proof (@failure_keeps_form_submission_clears sampleCollaborators sampleCtx
                filledWorld) as (Hkeep & Hclear & _).
  split; [|split; [|split]].
  - intros E. apply (f_equal (fun m => m !! "name")) in E. discriminate E.
  - intros E. apply (f_equal (fun m => m !! "globalError")) in E. discriminate E.
  - cbv zeta.
    destruct (Hclear (CreateSingle
                (composeBookingInput sampleCtx (formValues filledWorld) sampleEvent
                   "2024-01-10T09:00:00Z")))
      as (Hstore & Herr & Hform & _).
    + apply list_elem_of_lookup. exists 2%nat. reflexivity.
    + repeat split; assumption.
  - apply Hkeep.
Defined.

(** ** C9: metadata extraction *)

Lemma string_length_app (s1 s2 : string) :
  String.length (s1 +:+ s2) = (String.length s1 + String.length s2)%nat.
Proof.
  induction s1 as [|a s1 IH]; simpl; [reflexivity | f_equal; exact IH].
Qed.

Lemma substring_0_app (s1 s2 : string) :
  String.substring 0 (String.length s1) (s1 +:+ s2) = s1.
Proof.
  induction s1 as [|a s1 IH]; simpl.
  - by destruct s2.
  - f_equal. exact IH.
Qed.




Lemma extract_lookup_inv searchParams keys acc name v :
  foldl (metadataReducer searchParams) acc keys !! name = Some v ->
  acc !! name = Some v
  \/ exists key, key ∈ keys /\ metadataName key = name
                 /\ v = (sp ← searchParams; searchParams_get sp key).
Proof.
  revert acc. induction keys as [|k keys IH]; intros acc; cbn.
  - by left.
  - intros Hl. destruct (IH _ Hl) as [Hacc | (key & Hin & Hname & Hv)].
    + unfold metadataReducer in Hacc.
      destruct (decide (metadataName k = name)) as [E|E].
      * rewrite E, lookup_insert_eq in Hacc. injection Hacc as <-.
        right. exists k. split; [left | done].
      * rewrite lookup_insert_ne in Hacc by done. by left.
    + right. exists key. split; [by right | done].
Qed.

Lemma extract_lookup_acc searchParams keys acc name :
  is_Some (acc !! name) ->
  is_Some (foldl (metadataReducer searchParams) acc keys !! name).
Proof.
  revert acc. induction keys as [|k keys IH]; intros acc; cbn; [done|].
  intros Hacc. apply IH. unfold metadataReducer.
  destruct (decide (metadataName k = name)) as [E|E].
  - rewrite E, lookup_insert_eq. by eexists.
  - by rewrite lookup_insert_ne.
Qed.

Lemma extract_lookup_key searchParams keys acc key :
  key ∈ keys ->
  is_Some (foldl (metadataReducer searchParams) acc keys !! metadataName key).
Proof.
  revert acc. induction keys as [|k keys IH]; intros acc Hin.
  - by apply elem_of_nil in Hin.
  - apply elem_of_cons in Hin as [<- | Hin]; cbn.
    + apply extract_lookup_acc. unfold metadataReducer.
      rewrite lookup_insert_eq. by eexists.
    + by apply IH.
Qed.

Lemma elem_of_metadataKeys routerQuery key :
  key ∈ metadataKeys routerQuery <->
  key ∈ routerQuery.*1 /\ startsWith key "metadata" = true.
Proof.
  unfold metadataKeys. rewrite list_elem_of_filter.
  rewrite Is_true_true. tauto.
Qed.

(** Every name of the extracted map comes from a key that starts with
    [metadata], with the value the search parameters give for that key. *)
Lemma extractMetadata_lookup_inv routerQuery searchParams name v :
  extractMetadata routerQuery searchParams !! name = Some v ->
  exists key,
    key ∈ routerQuery.*1 /\ startsWith key "metadata" = true
    /\ metadataName key = name
    /\ v = (sp ← searchParams; searchParams_get sp key).
Proof.
  unfold extractMetadata. intros Hl.
  apply extract_lookup_inv in Hl as [Hempty | (key & Hin & Hname & Hv)].
  - by rewrite lookup_empty in Hempty.
  - apply elem_of_metadataKeys in Hin as [Hin Hpre]. by exists key.
Qed.

Lemma extractMetadata_dom routerQuery searchParams name :
  is_Some (extractMetadata routerQuery searchParams !! name) <->
  exists key,
    key ∈ routerQuery.*1 /\ startsWith key "metadata" = true /\ metadataName key = name.
Proof.
  split.
  - intros [v Hv]. apply extractMetadata_lookup_inv in Hv as (key & ? & ? & ? & _).
    by exists key.
  - intros (key & Hin & Hpre & <-). unfold extractMetadata.
    apply extract_lookup_key. by apply elem_of_metadataKeys.
Qed.


Lemma exampleQuery_bracket_keys key :
  key ∈ exampleQuery.*1 -> startsWith key "metadata" = true -> matchesBracketPattern key.
Proof.
  cbn. rewrite !elem_of_cons. intros [-> | [-> | [-> | Hnil]]] Hpre.
  - by exists "a".
  - by exists "b".
  - discriminate Hpre.
  - by apply elem_of_nil in Hnil.
Qed.




(** * Further properties of the hook *)

(** ** The poller *)

(** X1. Expiry is monotone in time: once the stored expiry instant is in
    the past it stays in the past, and the location query stays disabled at
    every later instant. *)
Theorem expiry_monotone w now later :
  (now <= later)%Z ->
  hasInstantMeetingTokenExpired w now = true ->
  hasInstantMeetingTokenExpired w later = true
  /\ instantBooking_enabled w later = false.
Proof.
  intros Hle Hexp.
  assert (hasInstantMeetingTokenExpired w later = true) as Hlater.
  { unfold hasInstantMeetingTokenExpired in *.
    destruct (expiryTime w) as [e|]; [|discriminate].
    apply Z.ltb_lt in Hexp. apply Z.ltb_lt. lia. }
  split; [exact Hlater|].
  unfold instantBooking_enabled. rewrite Hlater. apply andb_false_r.
Qed.

Lemma expiry_monotone_witness :
  hasInstantMeetingTokenExpired expiredWorld (lateNow + 60000) = true
  /\ instantBooking_enabled expiredWorld (lateNow + 60000) = false.
Proof.
  apply (expiry_monotone expiredWorld lateNow (lateNow + 60000)).
  - unfold lateNow. lia.
  - reflexivity.
Defined.

(** X2. A created instant booking with a non-zero id arms the poll: after
    the success callback the location query is enabled exactly at the
    instants up to and including the returned expiry, whatever booking id and
    expiry were stored before. With a booking id of zero it is never
    enabled. *)
Theorem instant_creation_arms_poll responseData w now :
  let w' := run (createInstantBookingMutation_onSuccess responseData) w in
  bookingId w' = ir_bookingId responseData
  /\ expiryTime w' = Some (ir_expires responseData)
  /\ (ir_bookingId responseData <> 0%Z ->
      (instantBooking_enabled w' now = true <-> (now <= ir_expires responseData)%Z))
  /\ (ir_bookingId responseData = 0%Z -> instantBooking_enabled w' now = false).
Proof.
  cbv zeta. unfold createInstantBookingMutation_onSuccess.
  split; [reflexivity|]. split; [reflexivity|].
  unfold instantBooking_enabled, hasInstantMeetingTokenExpired, bookingId.
  unfold_hook. cbn. unfold toBoolean, number_ToBoolean. split.
  - intros Hid. apply Z.eqb_neq in Hid. rewrite Hid. cbn.
    rewrite negb_true_iff, Z.ltb_ge. reflexivity.
  - intros ->. reflexivity.
Qed.

Lemma instant_creation_arms_poll_witness :
  let w' := run (createInstantBookingMutation_onSuccess
                   {| ir_bookingId := 7; ir_expires := lateNow |}) expiredWorld in
  instantBooking_enabled w' lateNow = true
  /\ instantBooking_enabled w' (lateNow + 1) = false.
Proof.
  pose proof (fun now => instant_creation_arms_poll
                {| ir_bookingId := 7; ir_expires := lateNow |} expiredWorld now) as Harm.
  cbv zeta in *. split.
  - apply (proj1 (proj2 (proj2 (Harm lateNow)))); [discriminate|]. cbn. lia.
  - destruct (proj1 (proj2 (proj2 (Harm (lateNow + 1)%Z))) ltac:(discriminate))
      as [Hon _].
    destruct (instantBooking_enabled _ _); [|reflexivity].
    specialize (Hon eq_refl). cbn in Hon. lia.
Defined.



(** ** The success callbacks *)

Ltac split_mem :=
  repeat match goal with
  | H : _ ∈ [] |- _ => by apply elem_of_nil in H
  | H : _ ∈ _ :: _ |- _ => apply elem_of_cons in H as [H|H]
  | H : ex _ |- _ => destruct H as [? H]
  end.

Ltac find_mem := eexists; apply list_elem_of_In; cbn; eauto.

(** X4. The single success callback dispatches the success redirect exactly
    when the result has a usable uid, logs to the console exactly when it has
    none, and navigates to a payment link exactly when it has a usable
    payment reference. A redirect it dispatches carries the result itself and
    the result's seat reference, null when the result has none. *)
Theorem single_success_dispatch `{Collaborators} ctx responseData w :
  let es := effectsOf (createBookingMutation_onSuccess ctx responseData) w in
  ((exists args, BookingSuccessRedirect args ∈ es) <-> toBoolean (br_uid responseData) = true)
  /\ ((exists msg, ConsoleError msg ∈ es) <-> toBoolean (br_uid responseData) = false)
  /\ ((exists url, RouterPush url ∈ es) <-> toBoolean (br_paymentUid responseData) = true)
  /\ (forall args,
        BookingSuccessRedirect args ∈ es ->
        ra_booking args = OfSingle responseData
        /\ seatReferenceUid (ra_query args)
           = Some (mjoin (br_seatReferenceUid responseData))).
Proof.
  cbv zeta. rewrite createBookingMutation_onSuccess_effects.
  unfold paymentHandoff, singleSuccessRedirect, or_undefined.
  destruct responseData as [uid pay seat]. cbn [br_uid br_paymentUid br_seatReferenceUid].
  destruct uid as [[|a u]|]; destruct pay as [[|b p]|]; cbn;
    (split; [|split; [|split]]);
    try (split; [intros Hex; split_mem; try discriminate; reflexivity
                | intros Heq; try discriminate; find_mem]);
    try (intros args Hin; split_mem; try discriminate;
         injection Hin as ->; split; reflexivity).
Qed.

Lemma single_success_dispatch_witness :
  ra_booking
    {| ra_successRedirectUrl := "";
       ra_query := {| isSuccessBookingPage := true; allRemainingBookings := None;
                      rq_email := Some (RText "ada@example.com");
                      eventTypeSlug := Some "intro";
                      seatReferenceUid := Some None; formerTime := None |};
       ra_booking := OfSingle paidResponse |} = OfSingle paidResponse
  /\ exists url,
       RouterPush url
         ∈ effectsOf (@createBookingMutation_onSuccess sampleCollaborators sampleCtx
                        paidResponse) filledWorld.
Proof.
  pose proof (@single_success_dispatch sampleCollaborators sampleCtx paidResponse
                filledWorld) as (_ & _ & Hpay & Hargs).
  split.
  - apply Hargs. rewrite createBookingMutation_onSuccess_effects.
    apply list_elem_of_In. right. left. reflexivity.
  - apply Hpay. reflexivity.
Defined.

Lemma formerTimeOf_Some `{Collaborators} ctx s :
  formerTimeOf ctx = Some s <->
  isRescheduling ctx = true
  /\ exists bd st, bookingData ctx = Some bd /\ bd_startTime bd = Some st
                   /\ s = dayjs_toString st.
Proof.
  unfold formerTimeOf. split.
  - destruct (bookingData ctx) as [bd|] eqn:Hbd; cbn; [|discriminate].
    destruct (bd_startTime bd) as [st|] eqn:Hst; [|discriminate].
    destruct (isRescheduling ctx); [|discriminate].
    intros [= <-]. split; [reflexivity|]. by exists bd, st.
  - intros (-> & bd & st & -> & Hst & ->). cbn. by rewrite Hst.
Qed.

(** X5. Every success redirect the single or the recurring callback
    dispatches has the success flag set, the email held by the form and the
    event slug in its query, and a redirect URL that is the event's or the
    empty string. Its query carries a former time exactly when the submission
    is a reschedule of loaded booking data with a start time, and then it is
    that start time. *)
Theorem redirect_query_contract `{Collaborators} ctx w args :
  (exists responseData,
     BookingSuccessRedirect args
       ∈ effectsOf (createBookingMutation_onSuccess ctx responseData) w)
  \/ (exists responseData,
        BookingSuccessRedirect args
          ∈ effectsOf (createRecurringBookingMutation_onSuccess ctx responseData) w) ->
  isSuccessBookingPage (ra_query args) = true
  /\ rq_email (ra_query args) = responses (formValues w) !! "email"
  /\ eventTypeSlug (ra_query args) = eventSlug ctx
  /\ ra_successRedirectUrl args
     = default "" (event_data ctx ≫= successRedirectUrl)
  /\ (forall s,
        formerTime (ra_query args) = Some s <->
        isRescheduling ctx = true
        /\ exists bd st, bookingData ctx = Some bd /\ bd_startTime bd = Some st
                         /\ s = dayjs_toString st).
Proof.
  assert (forall o : option string, or_else o "" = default "" o) as Hurl.
  { intros [[|a u]|]; reflexivity. }
  intros [[responseData Hin] | [responseData Hin]].
  - rewrite createBookingMutation_onSuccess_effects in Hin.
    unfold paymentHandoff, singleSuccessRedirect in Hin.
    apply elem_of_app in Hin as [Hin | Hin].
    + destruct (or_undefined (br_paymentUid responseData)); split_mem; discriminate.
    + destruct (toBoolean (br_uid responseData)); split_mem; try discriminate.
      injection Hin as ->. cbn. rewrite Hurl.
      do 4 (split; [reflexivity|]). intros s. apply formerTimeOf_Some.
  - rewrite createRecurringBookingMutation_onSuccess_effects in Hin.
    unfold recurringSuccessRedirect in Hin.
    destruct (head responseData) as [first|]; [|split_mem; discriminate].
    destruct (toBoolean (ro_uid first)); split_mem; try discriminate.
    injection Hin as ->. cbn. rewrite Hurl.
    do 4 (split; [reflexivity|]). intros s. apply formerTimeOf_Some.
Qed.

Lemma redirect_query_contract_witness :
  exists args,
    BookingSuccessRedirect args
      ∈ effectsOf (@createBookingMutation_onSuccess sampleCollaborators sampleCtx
                     paidResponse) filledWorld
    /\ rq_email (ra_query args) = Some (RText "ada@example.com")
    /\ formerTime (ra_query args) = None.
Proof.
  assert (exists args,
            BookingSuccessRedirect args
              ∈ effectsOf (@createBookingMutation_onSuccess sampleCollaborators sampleCtx
                             paidResponse) filledWorld) as [args Hin].
  { rewrite createBookingMutation_onSuccess_effects. eexists.
    apply list_elem_of_In. right. left. reflexivity. }
  exists args. split; [exact Hin|].
  destruct (@redirect_query_contract sampleCollaborators sampleCtx filledWorld args)
    as (_ & Hemail & _ & _ & Hformer).
  { left. by exists paidResponse. }
  split; [rewrite Hemail; reflexivity|].
  destruct (formerTime (ra_query args)) as [s|]; [|reflexivity].
  destruct (proj1 (Hformer s) eq_refl) as [Hresched _]. discriminate Hresched.
Defined.

(** X6. The recurring success callback looks at the first occurrence only:
    two results with the same first element have the same effects. It
    dispatches a redirect exactly when that first occurrence has a usable
    uid, and the redirect then carries that occurrence and the
    all-remaining-bookings flag. *)
Theorem recurring_success_first_occurrence `{Collaborators} ctx responseData w :
  let es := effectsOf (createRecurringBookingMutation_onSuccess ctx responseData) w in
  (forall other,
     head other = head responseData ->
     effectsOf (createRecurringBookingMutation_onSuccess ctx other) w = es)
  /\ ((exists args, BookingSuccessRedirect args ∈ es) <->
      exists first, head responseData = Some first /\ toBoolean (ro_uid first) = true)
  /\ (forall args,
        BookingSuccessRedirect args ∈ es ->
        allRemainingBookings (ra_query args) = Some true
        /\ exists first, head responseData = Some first
                         /\ ra_booking args = OfOccurrence first).
Proof.
  cbv zeta. split; [|split].
  - intros other Hhead. rewrite !createRecurringBookingMutation_onSuccess_effects.
    by rewrite Hhead.
  - rewrite createRecurringBookingMutation_onSuccess_effects.
    unfold recurringSuccessRedirect. split.
    + destruct (head responseData) as [first|]; [|intros; split_mem; discriminate].
      destruct (toBoolean (ro_uid first)) eqn:Huid; intros Hex; split_mem;
        try discriminate. by exists first.
    + intros (first & -> & ->). find_mem.
  - intros args. rewrite createRecurringBookingMutation_onSuccess_effects.
    unfold recurringSuccessRedirect.
    destruct (head responseData) as [first|]; [|intros; split_mem; discriminate].
    destruct (toBoolean (ro_uid first)); intros Hin; split_mem; try discriminate.
    injection Hin as ->. split; [reflexivity|]. by exists first.
Qed.

Lemma recurring_success_first_occurrence_witness :
  effectsOf (@createRecurringBookingMutation_onSuccess sampleCollaborators sampleCtx
               [{| ro_uid := Some "occ_1" |}]) emptyWorld
  = effectsOf (@createRecurringBookingMutation_onSuccess sampleCollaborators sampleCtx
                 [{| ro_uid := Some "occ_1" |}; {| ro_uid := None |};
                  {| ro_uid := Some "occ_3" |}]) emptyWorld.
Proof.
  apply (proj1 (@recurring_success_first_occurrence sampleCollaborators sampleCtx
                  [{| ro_uid := Some "occ_1" |}; {| ro_uid := None |};
                   {| ro_uid := Some "occ_3" |}] emptyWorld)).
  reflexivity.
Defined.

(** ** Submission *)

(** X7. A submission dispatches a creation call exactly when a timeslot is
    selected and the event data is loaded. Without a timeslot (null or the
    empty string) it changes nothing at all; with a timeslot but without
    event data it empties the store cache and leaves the global error on the
    form, which the early return keeps from being cleared. *)
Theorem submission_guards `{Collaborators} ctx w :
  let es := effectsOf (handleBookEvent ctx) w in
  let w' := run (handleBookEvent ctx) w in
  (creationCalls es <> [] <->
   toBoolean (timeslot ctx) = true /\ is_Some (event_data ctx))
  /\ (toBoolean (timeslot ctx) = false -> w' = w)
  /\ (toBoolean (timeslot ctx) = true -> event_data ctx = None ->
      es = [SetFormValues ∅; ClearErrors;
            SetError "globalError" (t "error_booking_event")]
      /\ formErrors w' = {[ "globalError" := t "error_booking_event" ]}
      /\ storeFormValues w' = ∅).
Proof.
  cbv zeta. split; [|split].
  - destruct (toBoolean (timeslot ctx)) eqn:Hslot.
    + destruct (event_data ctx) as [data|] eqn:Hdata.
      * destruct (timeslot ctx) as [slot|] eqn:Hs; [|discriminate].
        destruct (handleBookEvent_effects ctx w slot data Hs Hslot Hdata)
          as (c & _ & -> & _).
        split; [intros _; split; [reflexivity | by eexists] | intros _; discriminate].
      * rewrite (handleBookEvent_no_event ctx w Hslot Hdata).
        split; [intros Hne; by destruct Hne | intros [_ [x Hx]]; discriminate].
    + unfold effectsOf. rewrite (handleBookEvent_no_slot ctx w Hslot), drop_all.
      split; [intros Hne; by destruct Hne | intros [? _]; discriminate].
  - intros Hslot. by apply handleBookEvent_no_slot.
  - intros Hslot Hdata. split; [by apply handleBookEvent_no_event|].
    unfold handleBookEvent. rewrite Hdata.
    destruct (timeslot ctx) as [slot|]; [|discriminate].
    unfold_hook. cbn. cbn in Hslot. rewrite Hslot. cbn.
    split; [|reflexivity]. by rewrite insert_empty.
Qed.

Lemma submission_guards_witness :
  run (@handleBookEvent sampleCollaborators (readStore sampleCtx
         {| selectedDate := None; selectedTimeslot := Some ""; 
            bs_seatedEventData := {| ss_bookingUid := None; ss_attendees := None;
                                     ss_rest := tt |} |})) filledWorld
  = filledWorld.
Proof.
  apply (proj1 (proj2 (@submission_guards sampleCollaborators _ filledWorld))).
  reflexivity.
Defined.

(** X8. Nothing keeps a second submission from dispatching again: two
    submissions in a row, with the same selection, dispatch the same creation
    call twice, on the same composed request. *)
Theorem resubmission_dispatches_again `{Collaborators} ctx w slot data :
  timeslot ctx = Some slot -> toBoolean slot = true -> event_data ctx = Some data ->
  exists c,
    creationCalls (drop (List.length (trace w)) (trace (twice (handleBookEvent ctx) w)))
      = [c; c]
    /\ inputOf c = composeBookingInput ctx (formValues w) data slot
    /\ pathOf c = selectedPath ctx data.
Proof.
  intros Hslot Htruthy Hdata.
  destruct (dispatchCreation_emit ctx data
              (composeBookingInput ctx (formValues w) data slot))
    as (c & Hemit & Hpath & Hinput).
  exists c. split; [|by split].
  unfold twice.
  pose proof (handleBookEvent_run ctx w slot data Hslot Htruthy Hdata) as Hfirst.
  rewrite Hemit in Hfirst.
  pose proof (handleBookEvent_run ctx (run (handleBookEvent ctx) w) slot data
                Hslot Htruthy Hdata) as Hsecond.
  assert (formValues (run (handleBookEvent ctx) w) = formValues w) as Hform.
  { rewrite Hfirst. reflexivity. }
  rewrite Hform, Hemit in Hsecond. rewrite Hsecond, Hfirst.
  unfold clearTransient. unfold_hook. cbn.
  rewrite <- !app_assoc. rewrite drop_app_length. reflexivity.
Qed.

Lemma resubmission_dispatches_again_witness :
  exists c,
    creationCalls
      (trace (twice (@handleBookEvent sampleCollaborators (sessionOf false)) emptyWorld))
    = [c; c]
    /\ pathOf c = RecurringPath.
Proof.
  destruct (@resubmission_dispatches_again sampleCollaborators (sessionOf false)
              emptyWorld "slot" weeklyEvent eq_refl eq_refl eq_refl)
    as (c & Hcalls & _ & Hpath).
  exists c. split; [exact Hcalls | exact Hpath].
Defined.

(** X9. Whatever the selection, a submission never touches the values held
    by the form, the booking id of the URL or the stored expiry, and the
    trace it started from is kept as a prefix. *)
Theorem submission_frame `{Collaborators} ctx w :
  let w' := run (handleBookEvent ctx) w in
  formValues w' = formValues w
  /\ queryBookingId w' = queryBookingId w
  /\ expiryTime w' = expiryTime w
  /\ trace w' = trace w ++ effectsOf (handleBookEvent ctx) w.
Proof.
  cbv zeta.
  destruct (toBoolean (timeslot ctx)) eqn:Hslot.
  - destruct (timeslot ctx) as [slot|] eqn:Hs; [|discriminate].
    destruct (event_data ctx) as [data|] eqn:Hdata.
    + destruct (handleBookEvent_effects ctx w slot data Hs Hslot Hdata)
        as (c & Hrun & Heff & _).
      rewrite Heff, Hrun. unfold clearTransient. unfold_hook. cbn.
      rewrite <- !app_assoc. done.
    + assert (toBoolean (timeslot ctx) = true) as Hslot' by (by rewrite Hs).
      rewrite (handleBookEvent_no_event ctx w Hslot' Hdata).
      unfold handleBookEvent. rewrite Hs, Hdata. unfold_hook. cbn.
      cbn in Hslot. rewrite Hslot. cbn. rewrite <- !app_assoc. done.
  - unfold effectsOf. rewrite (handleBookEvent_no_slot ctx w Hslot), drop_all.
    by rewrite app_nil_r.
Qed.

(** ** The composed request *)

(** X10. The references of the composed request are never the empty
    string: empty ones become undefined. The booking uid is the uid of the
    loaded booking data when that is usable, and otherwise the usable uid of
    the seated booking; the username is the empty string exactly when none is
    known. *)
Theorem composed_request_references ctx values data date :
  let input := composeBookingInput ctx values data date in
  bi_rescheduleUid input <> Some ""
  /\ bi_bookingUid input <> Some ""
  /\ (is_Some (bi_rescheduleUid input) <-> toBoolean (rescheduleUid ctx) = true)
  /\ (forall u, bookingData ctx ≫= bd_uid = Some u -> u <> "" ->
      bi_bookingUid input = Some u)
  /\ (toBoolean (bookingData ctx ≫= bd_uid) = false ->
      bi_bookingUid input = or_undefined (bookingUid (seatedEventData ctx)))
  /\ (bi_username input = "" <-> toBoolean (username ctx) = false).
Proof.
  cbv zeta. unfold composeBookingInput, or_undefined, or_nullable, or_else. cbn.
  split; [|split; [|split; [|split; [|split]]]].
  - destruct (rescheduleUid ctx) as [[|a u]|]; cbn; discriminate.
  - destruct (bookingData ctx ≫= bd_uid) as [[|a u]|]; cbn; try discriminate;
      destruct (bookingUid (seatedEventData ctx)) as [[|b v]|]; cbn; discriminate.
  - destruct (rescheduleUid ctx) as [[|a u]|]; cbn;
      (split; [intros [x Hx]; try discriminate; reflexivity
              | intros Ht; try discriminate; by eexists]).
  - intros u -> Hu. destruct u as [|a u]; [done | reflexivity].
  - intros Hfalsy. destruct (bookingData ctx ≫= bd_uid) as [[|a u]|]; cbn in *;
      try discriminate; reflexivity.
  - destruct (username ctx) as [[|a u]|]; cbn; split; try done.
Qed.

Lemma composed_request_references_witness :
  let ctx := readStore sampleCtx
               {| selectedDate := None; selectedTimeslot := Some "slot";
                  bs_seatedEventData := {| ss_bookingUid := Some "seat_9";
                                           ss_attendees := Some 2%Z; ss_rest := tt |} |} in
  bi_bookingUid (composeBookingInput ctx {| responses := ∅ |} sampleEvent "slot")
  = Some "seat_9".
Proof.
  cbv zeta.
  rewrite (proj1 (proj2 (proj2 (proj2 (proj2
             (composed_request_references _ {| responses := ∅ |} sampleEvent "slot")))))).
  - reflexivity.
  - reflexivity.
Defined.

(** X11. The resolved duration is always the selected duration or the
    event's length. For an event that is not dynamic it is the event's length
    or one of the allowed durations, whatever was selected; and it is zero
    only when the event's length is zero. *)
Theorem validDuration_range data duration :
  (validDuration data duration = ev_length data
   \/ duration = Some (validDuration data duration))
  /\ (isDynamic data = false ->
      validDuration data duration ∈ ev_length data :: allowedDurations data)
  /\ (validDuration data duration = 0%Z -> ev_length data = 0%Z).
Proof.
  unfold validDuration, or_else.
  split; [|split].
  - destruct (isDynamic data); destruct duration as [d|]; auto.
    + destruct (toBoolean d); auto.
    + destruct (toBoolean d && toBoolean (multipleDuration_includes data d)); auto.
  - intros ->. destruct duration as [d|]; [|left].
    rewrite multipleDuration_includes_allowed.
    destruct (toBoolean d); cbn; [|left].
    case_bool_decide; [by right | left].
  - destruct (isDynamic data); destruct duration as [d|]; try done.
    + destruct (toBoolean d) eqn:Hd; [|done].
      intros ->. discriminate Hd.
    + destruct (toBoolean d) eqn:Hd; cbn; [|done].
      destruct (toBoolean (multipleDuration_includes data d)); [|done].
      intros ->. discriminate Hd.
Qed.

Lemma validDuration_range_witness :
  validDuration multiDurationEvent (Some 45%Z) ∈ [30; 15; 30; 60]%Z.
Proof.
  apply (proj1 (proj2 (validDuration_range multiDurationEvent (Some 45%Z)))).
  reflexivity.
Defined.

(** ** Metadata extraction *)

Lemma metadataKeys_app q1 q2 :
  metadataKeys (q1 ++ q2) = metadataKeys q1 ++ metadataKeys q2.
Proof.
  unfold metadataKeys. by rewrite fmap_app, filter_app.
Qed.

Lemma extractMetadata_snoc routerQuery searchParams key v :
  extractMetadata (routerQuery ++ [(key, v)]) searchParams =
    if startsWith key "metadata"
    then metadataReducer searchParams (extractMetadata routerQuery searchParams) key
    else extractMetadata routerQuery searchParams.
Proof.
  unfold extractMetadata. rewrite metadataKeys_app, foldl_app.
  unfold metadataKeys at 2. change ([(key, v)].*1) with [key].
  rewrite filter_cons, filter_nil.
  destruct (startsWith key "metadata").
  - rewrite decide_True by exact I. reflexivity.
  - rewrite decide_False by (intros []). reflexivity.
Qed.

(** X12. When two query keys give the same name, the later key wins: a key
    that starts with [metadata] and comes last sets the value of its name,
    overriding what earlier keys gave, and leaves every other name alone. A
    last key that does not start with [metadata] changes nothing. *)
Theorem metadata_last_key_wins routerQuery searchParams key v :
  (startsWith key "metadata" = true ->
   extractMetadata (routerQuery ++ [(key, v)]) searchParams !! metadataName key
     = Some (sp ← searchParams; searchParams_get sp key)
   /\ forall name, name <> metadataName key ->
        extractMetadata (routerQuery ++ [(key, v)]) searchParams !! name
        = extractMetadata routerQuery searchParams !! name)
  /\ (startsWith key "metadata" = false ->
      extractMetadata (routerQuery ++ [(key, v)]) searchParams
      = extractMetadata routerQuery searchParams).
Proof.
  rewrite extractMetadata_snoc. split.
  - intros ->. unfold metadataReducer. split.
    + apply lookup_insert_eq.
    + intros name Hne. by rewrite lookup_insert_ne.
  - intros ->. reflexivity.
Qed.

Lemma metadata_last_key_wins_witness :
  extractMetadata [("metadata[a]", "1"); ("metadata(a)", "2")]
    (Some [("metadata[a]", "1"); ("metadata(a)", "2")]) !! "a" = Some (Some "2").
Proof.
  apply (proj1 (metadata_last_key_wins [("metadata[a]", "1")]
                  (Some [("metadata[a]", "1"); ("metadata(a)", "2")])
                  "metadata(a)" "2")).
  reflexivity.
Defined.

(** X13. The names of the extracted map depend on the router query alone.
    When the search parameters are null every name is still there, with an
    undefined value; and a name whose key the search parameters do not hold
    has the value null. *)
Theorem metadata_without_search_params routerQuery :
  (forall searchParams searchParams' name,
     is_Some (extractMetadata routerQuery searchParams !! name)
     <-> is_Some (extractMetadata routerQuery searchParams' !! name))
  /\ (forall name v, extractMetadata routerQuery None !! name = Some v -> v = None)
  /\ (forall searchParams name v,
        extractMetadata routerQuery (Some searchParams) !! name = Some (Some v) ->
        exists key, (key, v) ∈ searchParams /\ metadataName key = name
                    /\ startsWith key "metadata" = true).
Proof.
  split; [|split].
  - intros sp sp' name. by rewrite !extractMetadata_dom.
  - intros name v Hv.
    by apply extractMetadata_lookup_inv in Hv as (key & _ & _ & _ & ->).
  - intros sp name v Hv.
    apply extractMetadata_lookup_inv in Hv as (key & _ & Hpre & Hname & Hval).
    exists key. split; [|done]. cbn in Hval. symmetry in Hval.
    clear -Hval. induction sp as [|[k x] sp IH]; [discriminate|].
    cbn in Hval. destruct (String.eqb k key) eqn:Hk.
    + apply String.eqb_eq in Hk as ->. injection Hval as ->. left.
    + right. by apply IH.
Qed.

Lemma metadata_without_search_params_witness :
  extractMetadata exampleQuery None !! "a" = Some None.
Proof.
  destruct (proj1 (proj1 (metadata_without_search_params exampleQuery)
                     (Some exampleQuery) None "a")) as [v Hv].
  - by eexists.
  - rewrite Hv. f_equal.
    exact (proj1 (proj2 (metadata_without_search_params exampleQuery)) "a" v Hv).
Defined.

Lemma substring_skip (p s : string) (m : nat) :
  String.substring (String.length p) m (p +:+ s) = String.substring 0 m s.
Proof.
  induction p as [|a p IH]; simpl; [reflexivity | exact IH].
Qed.

(** X14. The name of a key is what lies between its first nine characters
    and its last one, whatever those are: neither bracket is checked. So a
    query key made of [metadata], any one character, a name and any one
    closing character is extracted under that name. *)
Theorem metadataName_ignores_brackets (name : string) (opening closing : Ascii.ascii) :
  let key := "metadata" +:+ String opening (name +:+ String closing "") in
  metadataName key = name
  /\ forall routerQuery searchParams,
       key ∈ routerQuery.*1 ->
       is_Some (extractMetadata routerQuery searchParams !! name).
Proof.
  cbv zeta.
  assert (metadataName ("metadata" +:+ String opening (name +:+ String closing "")) = name)
    as Hname.
  { unfold metadataName, JS.substring, JS.length, clamp.
    assert (String.length ("metadata" +:+ String opening (name +:+ String closing ""))
            = (10 + String.length name)%nat) as ->.
    { simpl. rewrite string_length_app. simpl. lia. }
    replace (String.length "metadata[") with 9%nat by reflexivity.
    match goal with
    | |- String.substring ?from ?len _ = _ =>
        replace from with (String.length ("metadata" +:+ String opening "")) by (simpl; lia);
        replace len with (String.length name) by lia
    end.
    change ("metadata" +:+ String opening (name +:+ String closing ""))
      with (("metadata" +:+ String opening "") +:+ (name +:+ String closing "")).
    rewrite substring_skip. apply substring_0_app. }
  split; [exact Hname|].
  intros routerQuery searchParams Hin. apply extractMetadata_dom.
  eexists. split; [exact Hin|]. split; [reflexivity | exact Hname].
Qed.

Lemma metadataName_ignores_brackets_witness :
  is_Some (extractMetadata [("metadata.utm)", "x")] None !! "utm").
Proof.
  apply (proj2 (metadataName_ignores_brackets "utm" "."%char ")"%char)
           [("metadata.utm)", "x")] None).
  apply list_elem_of_In. left. reflexivity.
Defined.

(** ** The verification hook-up and the error view *)

(** X15. [beforeVerifyEmail] drops whatever errors the form had and leaves
    exactly the global error when the event data is missing, none otherwise.
    It dispatches no creation call and, unlike a submission, leaves the store
    cache and the form values alone. *)
Theorem beforeVerifyEmail_effect `{Collaborators} ctx w :
  let w' := run (beforeVerifyEmail ctx) w in
  formErrors w'
    = match event_data ctx with
      | Some _ => ∅
      | None => {[ "globalError" := t "error_booking_event" ]}
      end
  /\ creationCalls (effectsOf (beforeVerifyEmail ctx) w) = []
  /\ storeFormValues w' = storeFormValues w
  /\ formValues w' = formValues w.
Proof.
  cbv zeta. unfold beforeVerifyEmail.
  destruct (event_data ctx) as [data|].
  - split; [reflexivity|]. split; [|done].
    assert (effectsOf (clearErrors;; mret tt) w = [ClearErrors]) as -> by trace_eq.
    reflexivity.
  - split; [unfold_hook; cbn; by rewrite insert_empty|]. split; [|done].
    assert (effectsOf
              (clearErrors;; setError "globalError" (t "error_booking_event");;
               early_return) w
            = [ClearErrors; SetError "globalError" (t "error_booking_event")])
      as -> by trace_eq.
    reflexivity.
Qed.

Lemma toBoolean_or_nullable {A} `{ToBoolean A} (a b : option A) :
  toBoolean (or_nullable a b) = toBoolean a || toBoolean b.
Proof.
  unfold or_nullable. destruct (toBoolean a) eqn:Ha; [by rewrite Ha | reflexivity].
Qed.

(** X16. The error view after a submission. A submission stopped by missing
    event data leaves the view with form errors and the global message,
    whatever the mutations report. A submission that dispatches a creation
    call clears the global error, so the view has form errors exactly when
    one of the three mutations is in error. The data error shown is the first
    truthy one of the single, recurring and instant mutations, in that
    order. *)
Theorem errors_after_submission `{Collaborators} {E} `{ToBoolean E}
    (ms : Mutations E) ctx w :
  let w' := run (handleBookEvent ctx) w in
  (toBoolean (timeslot ctx) = true -> event_data ctx = None ->
   hasFormErrors (errors ms w') = true
   /\ ufe_formErrors (errors ms w') = Some (t "error_booking_event"))
  /\ (creationCalls (effectsOf (handleBookEvent ctx) w) <> [] ->
      ufe_formErrors (errors ms w') = None
      /\ hasFormErrors (errors ms w')
         = isError (createBookingMutation ms)
           || isError (createRecurringBookingMutation ms)
           || isError (createInstantBookingMutation ms))
  /\ toBoolean (dataErrors (errors ms w'))
     = toBoolean (error (createBookingMutation ms))
       || toBoolean (error (createRecurringBookingMutation ms))
       || toBoolean (error (createInstantBookingMutation ms))
  /\ (toBoolean (error (createBookingMutation ms)) = true ->
      dataErrors (errors ms w') = error (createBookingMutation ms)).
Proof.
  cbv zeta. split; [|split; [|split]].
  - intros Hslot Hdata. unfold handleBookEvent. rewrite Hdata.
    destruct (timeslot ctx) as [slot|]; [|discriminate].
    unfold errors. unfold_hook. cbn. cbn in Hslot. rewrite Hslot. cbn.
    rewrite insert_empty, lookup_singleton_eq. split; [|reflexivity].
    rewrite bool_decide_eq_true_2 by (by eexists). apply orb_true_r.
  - intros Hcalls.
    assert (exists c, Mutate c ∈ effectsOf (handleBookEvent ctx) w) as [c Hin].
    { destruct (effectsOf (handleBookEvent ctx) w) as [|e es] eqn:Hes; [done|].
      clear Hes. revert Hcalls. generalize (e :: es). clear.
      intros l. induction l as [|[] l IH]; cbn; intros Hne; try done;
        try (destruct (IH Hne) as [c Hc]; exists c; by right).
      eexists. left. }
    destruct (handleBookEvent_dispatch_inv ctx w c Hin) as (slot & data & Hs & Ht & Hd).
    destruct (handleBookEvent_effects ctx w slot data Hs Ht Hd) as (c' & -> & _).
    unfold errors, clearTransient. unfold_hook. cbn.
    rewrite lookup_empty. split; [reflexivity|].
    rewrite bool_decide_eq_false_2 by (intros [x Hx]; discriminate).
    apply orb_false_r.
  - unfold errors. cbn [dataErrors]. by rewrite !toBoolean_or_nullable.
  - intros E1. unfold errors. cbn [dataErrors].
    assert (or_nullable (error (createBookingMutation ms))
              (error (createRecurringBookingMutation ms))
            = error (createBookingMutation ms)) as ->.
    { unfold or_nullable. by rewrite E1. }
    unfold or_nullable. by rewrite E1.
Qed.

Lemma errors_after_submission_witness :
  let quiet := {| isError := false; error := @None string; isLoading := false |} in
  let ms := {| createBookingMutation := quiet; createRecurringBookingMutation := quiet;
               createInstantBookingMutation := quiet |} in
  is_Some (formErrors filledWorld !! "globalError")
  /\ hasFormErrors
       (errors ms (run (@handleBookEvent sampleCollaborators sampleCtx) filledWorld))
     = false.
Proof.
  cbv zeta. split; [by eexists|].
  match goal with
  | |- hasFormErrors (errors ?ms _) = _ =>
      destruct (@errors_after_submission sampleCollaborators string _ ms sampleCtx
                  filledWorld) as (_ & Hclear & _)
  end.
  destruct Hclear as [_ ->]; [|reflexivity].
  destruct (@handleBookEvent_effects sampleCollaborators sampleCtx filledWorld
              "2024-01-10T09:00:00Z" sampleEvent eq_refl eq_refl eq_refl)
    as (c & _ & -> & _).
  discriminate.
Defined.

(** * Properties of the Booker component *)

Ltac booker_cases v :=
  destruct v as [away unpublished success hasData st lay inDialog];
  unfold Booker, BookerComponent, shows; cbn;
  destruct away, unpublished, success, hasData, st, lay, inDialog; cbn.


(** The page is rendered exactly when none of the early returns is
    taken. *)
Lemma Booker_page_iff v :
  (exists page, Booker v = Page page) <->
  props_isAway v = false /\ entity_isUnpublished v = false
  /\ event_isSuccess v && negb (event_hasData v) = false
  /\ bookerState v <> loading.
Proof.
  booker_cases v; split;
    try (intros [page Hpage]; discriminate Hpage);
    try (intros (? & ? & ? & ?); done);
    try (intros _; repeat split; done);
    try (intros _; by eexists).
Qed.

(** X17. In a render whose booker state is the one the effect sets, the
    booking form is visible, in the page or in the dialog but never in both,
    exactly when the page is rendered at all (not away, entity published,
    event not found to be missing), the event is not loading and both a date
    and a timeslot are selected. *)
Theorem booking_form_shown_iff_selected v isLoading date slot :
  bookerState v = bookerStateEffect isLoading date slot ->
  (shows bookEventFormVisible (Booker v) || shows bookFormAsModalVisible (Booker v) = true
   <-> props_isAway v = false /\ entity_isUnpublished v = false
       /\ event_isSuccess v && negb (event_hasData v) = false
       /\ isLoading = false /\ toBoolean date = true /\ toBoolean slot = true)
  /\ shows bookEventFormVisible (Booker v) && shows bookFormAsModalVisible (Booker v)
     = false
  /\ (shows bookFormAsModalVisible (Booker v) = true -> shouldShowFormInDialog v = true)
  /\ (shows bookEventFormVisible (Booker v) = true -> shouldShowFormInDialog v = false).
Proof.
  unfold bookerStateEffect.
  destruct isLoading, (toBoolean date), (toBoolean slot); cbn; intros Hst;
    booker_cases v; try discriminate Hst;
    (split; [split; [try discriminate; intros _; repeat split; done
                    | try reflexivity; intros (? & ? & ? & ? & ? & ?); done]
            | split; [reflexivity | split; done]]).
Qed.

Lemma booking_form_shown_iff_selected_witness :
  shows bookEventFormVisible (Booker selectedView)
  || shows bookFormAsModalVisible (Booker selectedView) = true.
Proof.
  apply (proj2 (proj1 (booking_form_shown_iff_selected selectedView false
                         (Some "2024-01-10") (Some "2024-01-10T09:00:00Z") eq_refl))).
  by repeat split.
Defined.





(** X20. The three-way choice of [addonDays] has a closed form: seven
    times the number of days missing to have one more non-empty day than
    [extraDays], and zero when none is missing. It is a multiple of seven,
    never negative, and zero exactly when there are more non-empty days than
    [extraDays]. *)
Theorem addonDays_closed_form (n extraDays : Z) :
  addonDays n extraDays = (7 * Z.max 0 (extraDays - n + 1))%Z
  /\ (0 <= addonDays n extraDays)%Z
  /\ (addonDays n extraDays = 0%Z <-> (extraDays < n)%Z)
  /\ (n < extraDays -> 14 <= addonDays n extraDays)%Z.
Proof.
  unfold addonDays, totalWeekDays.
  destruct (Z.ltb_spec n extraDays) as [Hlt|Hge].
  - repeat split; try lia.
  - destruct (Z.eqb_spec n extraDays) as [Heq|Hne]; repeat split; try lia.
Qed.

Lemma addonDays_closed_form_witness : (14 <= addonDays 3 4)%Z.
Proof.
  apply (proj2 (proj2 (proj2 (addonDays_closed_form 3 4)))). lia.
Defined.

(** X21. Cancelling the form unselects the timeslot and leaves no usable
    booking uid on the seated-event data; the attendees are dropped only
    when there was a uid to drop, and the rest of that data and the selected
    date are kept. After it the state the effect sets is not [booking], and a
    submission read from that store does nothing. *)
Theorem onCancel_resets_selection `{Collaborators} {Rest} (s : BookerStore Rest)
    ctx isLoading w :
  let s' := onCancel s in
  selectedTimeslot s' = None
  /\ selectedDate s' = selectedDate s
  /\ toBoolean (ss_bookingUid (bs_seatedEventData s')) = false
  /\ ss_rest (bs_seatedEventData s') = ss_rest (bs_seatedEventData s)
  /\ (toBoolean (ss_bookingUid (bs_seatedEventData s)) = false ->
      bs_seatedEventData s' = bs_seatedEventData s)
  /\ bookerStateEffect isLoading (selectedDate s') (selectedTimeslot s') <> booking
  /\ run (handleBookEvent (readStore ctx s')) w = w.
Proof.
  cbv zeta. unfold onCancel. cbn.
  split; [reflexivity|]. split; [reflexivity|].
  destruct (toBoolean (ss_bookingUid (bs_seatedEventData s))) eqn:Huid; cbn.
  - split; [reflexivity|]. split; [reflexivity|]. split; [discriminate|].
    split; [|reflexivity].
    unfold bookerStateEffect. destruct isLoading, (toBoolean (selectedDate s)); done.
  - split; [exact Huid|]. split; [reflexivity|]. split; [reflexivity|].
    split; [|reflexivity].
    unfold bookerStateEffect. destruct isLoading, (toBoolean (selectedDate s)); done.
Qed.

Lemma onCancel_resets_selection_witness :
  let s := {| selectedDate := Some "2024-01-10";
              selectedTimeslot := Some "2024-01-10T09:00:00Z";
              bs_seatedEventData := {| ss_bookingUid := None; ss_attendees := Some 3%Z;
                                       ss_rest := tt |} |} in
  ss_attendees (bs_seatedEventData (onCancel s)) = Some 3%Z.
Proof.
  cbv zeta.
  rewrite (proj1 (proj2 (proj2 (proj2 (proj2
             (@onCancel_resets_selection sampleCollaborators unit _ sampleCtx false
                emptyWorld))))));
    reflexivity.
Defined.
